(** * The session engine of the gaze tracking client (gazeapi.cpp)

    A shallow embedding of [gtl::CalibrationProxy] and [gtl::GazeApi::Engine].

    The engine is stateful and talks to two collaborators whose code lives in
    headers that are not at hand: the JSON parser ([Parser::*]) and
    the socket.  The engine's fields are a record, its methods are
    computations in a state-and-output monad: the output is the ordered list
    of calls the engine makes on the socket and on its listeners.

    The engine runs on two threads: callers of the public operations, and
    the socket's receive context which calls [on_message].  The embedding
    serialises them: whenever a caller waits (the blocking [send_sync] of the
    socket, the 1 ms sleeps of [get_default_version]) the activity of the
    receive context during that wait is an explicit argument. *)

From Stdlib Require Import ZArith QArith Qround List Bool Lia.
From stdpp Require Import base option gmap strings pretty.

Local Open Scope Z_scope.

(** ** Wire text *)

(** The double quote character of the C++ string literals. *)
Definition dq : string := String (Ascii.ascii_of_nat 34) EmptyString.

(** [q s] is [s] between double quotes, as in the literal [\"s\"]. *)
Definition q (s : string) : string := dq +:+ s +:+ dq.

(** ** Protocol enumerations (named in gazeapi.cpp) *)

Inductive GazeApiCategory := GAC_UNKNOWN | GAC_TRACKER | GAC_CALIBRATION.

Inductive GazeApiRequest :=
  | GAR_UNKNOWN | GAR_GET | GAR_SET | GAR_START | GAR_POINTSTART
  | GAR_POINTEND | GAR_ABORT | GAR_CLEAR.

Inductive GazeApiStatusCode :=
  | GASC_OK | GASC_ERROR
  | GASC_CALIBRATION_CHANGE | GASC_DISPLAY_CHANGE | GASC_TRACKER_STATE_CHANGE.

#[global] Instance GazeApiCategory_eq_dec : EqDecision GazeApiCategory.
Proof. solve_decision. Defined.
#[global] Instance GazeApiRequest_eq_dec : EqDecision GazeApiRequest.
Proof. solve_decision. Defined.
#[global] Instance GazeApiStatusCode_eq_dec : EqDecision GazeApiStatusCode.
Proof. solve_decision. Defined.

(** ** Snapshot entities *)

(** Modelled from the spec: the struct [Screen] of gazeapi_types.h, a header
    that is not at hand.  The field names are those read by
    [set_screen]; the physical sizes are taken as exact numbers, so that
    comparison by value is equality. *)
Record Screen := {
  screenindex : Z;
  screenresw : Z;
  screenresh : Z;
  screenpsyw : Z;
  screenpsyh : Z
}.

(** Modelled from the spec: the struct [ServerState] of gazeapi_types.h
    (version, tracker connection state, frame rate, calibration flags). *)
Record ServerState := {
  version : Z;
  trackerstate : Z;
  framerate : Z;
  iscalibrated : bool;
  iscalibrating : bool
}.

(** Modelled from the spec: the struct [GazeData] of gazeapi_types.h
    (timestamp, state bitmask, raw and smoothed coordinates).  The engine
    only copies it. *)
Record GazeData := {
  time : Z;
  state : Z;
  raw : Z * Z;
  avg : Z * Z
}.

(** Modelled from the spec: the struct [CalibResult] of gazeapi_types.h
    (success flag, per-point quality data). *)
Record CalibResult := {
  result : bool;
  calibpoints : list Z
}.

#[global] Instance Screen_eq_dec : EqDecision Screen.
Proof. solve_decision. Defined.
#[global] Instance ServerState_eq_dec : EqDecision ServerState.
Proof. solve_decision. Defined.
#[global] Instance GazeData_eq_dec : EqDecision GazeData.
Proof. solve_decision. Defined.
#[global] Instance CalibResult_eq_dec : EqDecision CalibResult.
Proof. solve_decision. Defined.

(** [memset( &x, 0, sizeof x )] *)
Definition Screen_zero : Screen :=
  {| screenindex := 0; screenresw := 0; screenresh := 0;
     screenpsyw := 0; screenpsyh := 0 |}.

Definition ServerState_zero : ServerState :=
  {| version := 0; trackerstate := 0; framerate := 0;
     iscalibrated := false; iscalibrating := false |}.

Definition GazeData_zero : GazeData :=
  {| time := 0; state := 0; raw := (0, 0); avg := (0, 0) |}.

(** Modelled from the spec: [CalibResult::clear()]. *)
Definition CalibResult_clear : CalibResult :=
  {| result := false; calibpoints := [] |}.

Definition set_trackerstate_field (v : Z) (s : ServerState) : ServerState :=
  {| version := version s; trackerstate := v; framerate := framerate s;
     iscalibrated := iscalibrated s; iscalibrating := iscalibrating s |}.

Definition set_version_field (v : Z) (s : ServerState) : ServerState :=
  {| version := v; trackerstate := trackerstate s; framerate := framerate s;
     iscalibrated := iscalibrated s; iscalibrating := iscalibrating s |}.

(** ** Numbers of the C++ code *)

(** [size_t] is 64 bits wide; arithmetic wraps around. *)
Definition size_max : Z := 2 ^ 64.

Definition to_size_t (z : Z) : Z := z mod size_max.

(** A [double]: either a finite value, given by the rational number it
    stands for, or the outcome of a division by zero (an infinity or a
    NaN). *)
Inductive double :=
  | Finite (v : Q)
  | DivByZero.

(** The integer nearest to [x], a tie going to the even one. *)
Definition round_half_even (x : Q) : Z :=
  let f := Qfloor x in
  match Qcompare (x - inject_Z f) (1 # 2) with
  | Lt => f
  | Gt => f + 1
  | Eq => if Z.even f then f else f + 1
  end.

(** For [x > 0], the exponent [e] with [2 ^ e <= x < 2 ^ (e + 1)]. *)
Definition binade (x : Q) : Z :=
  let e := Z.log2 (Qnum x) - Z.log2 (Z.pos (Qden x)) in
  if Qle_bool (2 ^ e)%Q x then e else e - 1.

(** The number with a significand of 53 bits nearest to [x > 0], a tie
    going to the even significand. *)
Definition nearest_double (x : Q) : Q :=
  let e := binade x in
  Qred (inject_Z (round_half_even (x * 2 ^ (52 - e))%Q) * 2 ^ (e - 52))%Q.

(** Rounding to binary64 in the default rounding mode.  Exponents are not
    bounded: the numbers that arise from two [size_t] values and their
    quotient lie between [2 ^ -64] and [2 ^ 64], where binary64 has neither
    overflow nor subnormal numbers. *)
Definition round_double (x : Q) : Q :=
  match Qcompare x 0 with
  | Eq => 0%Q
  | Gt => nearest_double x
  | Lt => (- nearest_double (- x))%Q
  end.

(** [(double)a / (double)b] for two [size_t] values: each conversion
    rounds, and so does the division. *)
Definition double_div (a b : Z) : double :=
  if b =? 0 then DivByZero
  else
    Finite
      (round_double
         (round_double (inject_Z a) / round_double (inject_Z b))%Q).

(** ** CalibrationProxy *)

Module CalibrationProxy.

Record t := {
  m_point_count : Z;
  m_processed_points : Z;
  m_is_calibrating : bool
}.

(** The constructor. *)
Definition new : t :=
  {| m_point_count := 0; m_processed_points := 0;
     m_is_calibrating := false |}.

Definition start_calibration (point_count : Z) (p : t) : t :=
  {| m_point_count := point_count;
     m_processed_points := m_processed_points p;
     m_is_calibrating := true |}.

Definition point_start (p : t) : t := p.

Definition point_end (p : t) : t :=
  {| m_point_count := m_point_count p;
     m_processed_points := to_size_t (m_processed_points p + 1);
     m_is_calibrating := m_is_calibrating p |}.

Definition is_done (p : t) : bool :=
  m_processed_points p =? m_point_count p.

Definition is_calibrating (p : t) : bool := m_is_calibrating p.

Definition get_progress (p : t) : double :=
  if 0 =? m_point_count p then Finite 0
  else double_div (m_processed_points p) (m_point_count p).

Definition clear (p : t) : t :=
  {| m_point_count := 0; m_processed_points := 0;
     m_is_calibrating := false |}.

End CalibrationProxy.

(** ** Engine::Message *)

Record Message := {
  m_category : GazeApiCategory;
  m_request : GazeApiRequest;
  m_statuscode : GazeApiStatusCode;
  m_id : Z;
  m_description : string
}.

(** [Message()], which is [reset()] on a fresh object. *)
Definition Message_new : Message :=
  {| m_category := GAC_UNKNOWN; m_request := GAR_UNKNOWN;
     m_statuscode := GASC_ERROR; m_id := -1;
     m_description := EmptyString |}.

Definition is_category (m : Message) (c : GazeApiCategory) : bool :=
  bool_decide (m_category m = c).

Definition is_request (m : Message) (r : GazeApiRequest) : bool :=
  bool_decide (m_request m = r).

Definition is_statuscode (m : Message) (s : GazeApiStatusCode) : bool :=
  bool_decide (m_statuscode m = s).

Definition is_notification (m : Message) : bool :=
  is_statuscode m GASC_CALIBRATION_CHANGE
  || is_statuscode m GASC_DISPLAY_CHANGE
  || is_statuscode m GASC_TRACKER_STATE_CHANGE.

Definition has_id (m : Message) : bool := 0 <=? m_id m.

(** ** The engine's fields *)

Inductive ApiState := AS_STOPPED | AS_RUNNING | AS_ISCALIBRATING.

#[global] Instance ApiState_eq_dec : EqDecision ApiState.
Proof. solve_decision. Defined.

(** Current API version this SDK requires. *)
Definition VERSION : Z := 2.

(** The ids of the synchronous requests. *)
Definition SR_ERROR : Z := Z.shiftl 1 0.
Definition SR_GET_TRACKER_STATE : Z := Z.shiftl 1 1.
Definition SR_GET_FRAME : Z := Z.shiftl 1 2.
Definition SR_GET_CALIB_RESULT : Z := Z.shiftl 1 3.
Definition SR_GET_CHANGES : Z := Z.shiftl 1 4.
Definition SR_SET_VERSION : Z := Z.shiftl 1 5.
Definition SR_SET_SCREEN : Z := Z.shiftl 1 7.
Definition SR_CALIB_START : Z := Z.shiftl 1 8.
Definition SR_CALIB_POINT_START : Z := Z.shiftl 1 9.

(** A listener is known by its handle.  The five [Observable<...>] bases of
    the engine each hold a vector of them, in registration order. *)
Definition observer : Type := nat.

Record Engine := {
  m_state : ApiState;
  m_calibration_proxy : CalibrationProxy.t;
  m_port : string;
  m_host : string;
  m_server_proxy : ServerState;
  m_gaze_data : GazeData;
  m_calib_result : CalibResult;
  m_screen : Screen;
  m_sync_requests : gmap Z Message;
  gaze_observers : list observer;
  calib_result_observers : list observer;
  tracker_state_observers : list observer;
  calib_process_observers : list observer;
  connection_state_observers : list observer
}.

Definition set_state (v : ApiState) (e : Engine) : Engine :=
  {| m_state := v; m_calibration_proxy := m_calibration_proxy e;
     m_port := m_port e; m_host := m_host e;
     m_server_proxy := m_server_proxy e; m_gaze_data := m_gaze_data e;
     m_calib_result := m_calib_result e; m_screen := m_screen e;
     m_sync_requests := m_sync_requests e;
     gaze_observers := gaze_observers e;
     calib_result_observers := calib_result_observers e;
     tracker_state_observers := tracker_state_observers e;
     calib_process_observers := calib_process_observers e;
     connection_state_observers := connection_state_observers e |}.

Definition set_calibration_proxy (v : CalibrationProxy.t) (e : Engine)
  : Engine :=
  {| m_state := m_state e; m_calibration_proxy := v;
     m_port := m_port e; m_host := m_host e;
     m_server_proxy := m_server_proxy e; m_gaze_data := m_gaze_data e;
     m_calib_result := m_calib_result e; m_screen := m_screen e;
     m_sync_requests := m_sync_requests e;
     gaze_observers := gaze_observers e;
     calib_result_observers := calib_result_observers e;
     tracker_state_observers := tracker_state_observers e;
     calib_process_observers := calib_process_observers e;
     connection_state_observers := connection_state_observers e |}.

Definition set_endpoint (host port : string) (e : Engine) : Engine :=
  {| m_state := m_state e; m_calibration_proxy := m_calibration_proxy e;
     m_port := port; m_host := host;
     m_server_proxy := m_server_proxy e; m_gaze_data := m_gaze_data e;
     m_calib_result := m_calib_result e; m_screen := m_screen e;
     m_sync_requests := m_sync_requests e;
     gaze_observers := gaze_observers e;
     calib_result_observers := calib_result_observers e;
     tracker_state_observers := tracker_state_observers e;
     calib_process_observers := calib_process_observers e;
     connection_state_observers := connection_state_observers e |}.

Definition set_server_proxy (v : ServerState) (e : Engine) : Engine :=
  {| m_state := m_state e; m_calibration_proxy := m_calibration_proxy e;
     m_port := m_port e; m_host := m_host e;
     m_server_proxy := v; m_gaze_data := m_gaze_data e;
     m_calib_result := m_calib_result e; m_screen := m_screen e;
     m_sync_requests := m_sync_requests e;
     gaze_observers := gaze_observers e;
     calib_result_observers := calib_result_observers e;
     tracker_state_observers := tracker_state_observers e;
     calib_process_observers := calib_process_observers e;
     connection_state_observers := connection_state_observers e |}.

Definition set_gaze_data (v : GazeData) (e : Engine) : Engine :=
  {| m_state := m_state e; m_calibration_proxy := m_calibration_proxy e;
     m_port := m_port e; m_host := m_host e;
     m_server_proxy := m_server_proxy e; m_gaze_data := v;
     m_calib_result := m_calib_result e; m_screen := m_screen e;
     m_sync_requests := m_sync_requests e;
     gaze_observers := gaze_observers e;
     calib_result_observers := calib_result_observers e;
     tracker_state_observers := tracker_state_observers e;
     calib_process_observers := calib_process_observers e;
     connection_state_observers := connection_state_observers e |}.

Definition set_calib_result (v : CalibResult) (e : Engine) : Engine :=
  {| m_state := m_state e; m_calibration_proxy := m_calibration_proxy e;
     m_port := m_port e; m_host := m_host e;
     m_server_proxy := m_server_proxy e; m_gaze_data := m_gaze_data e;
     m_calib_result := v; m_screen := m_screen e;
     m_sync_requests := m_sync_requests e;
     gaze_observers := gaze_observers e;
     calib_result_observers := calib_result_observers e;
     tracker_state_observers := tracker_state_observers e;
     calib_process_observers := calib_process_observers e;
     connection_state_observers := connection_state_observers e |}.

Definition set_screen_field (v : Screen) (e : Engine) : Engine :=
  {| m_state := m_state e; m_calibration_proxy := m_calibration_proxy e;
     m_port := m_port e; m_host := m_host e;
     m_server_proxy := m_server_proxy e; m_gaze_data := m_gaze_data e;
     m_calib_result := m_calib_result e; m_screen := v;
     m_sync_requests := m_sync_requests e;
     gaze_observers := gaze_observers e;
     calib_result_observers := calib_result_observers e;
     tracker_state_observers := tracker_state_observers e;
     calib_process_observers := calib_process_observers e;
     connection_state_observers := connection_state_observers e |}.

Definition set_sync_requests (v : gmap Z Message) (e : Engine) : Engine :=
  {| m_state := m_state e; m_calibration_proxy := m_calibration_proxy e;
     m_port := m_port e; m_host := m_host e;
     m_server_proxy := m_server_proxy e; m_gaze_data := m_gaze_data e;
     m_calib_result := m_calib_result e; m_screen := m_screen e;
     m_sync_requests := v;
     gaze_observers := gaze_observers e;
     calib_result_observers := calib_result_observers e;
     tracker_state_observers := tracker_state_observers e;
     calib_process_observers := calib_process_observers e;
     connection_state_observers := connection_state_observers e |}.

(** ** What the engine does to its collaborators *)

(** The methods of the five listener interfaces. *)
Inductive callback :=
  | on_gaze_data (gaze_data : GazeData)
  | on_calibration_changed (is_calibrated : bool) (calib_result : CalibResult)
  | on_tracker_connection_changed (tracker_state : Z)
  | on_screen_state_changed (screen : Screen)
  | on_calibration_started
  | on_calibration_progress (progress : double)
  | on_calibration_result (is_calibrated : bool) (calib_result : CalibResult)
  | on_connection_state_changed (is_connected : bool).

Inductive effect :=
  | SocketConnect (host port : string)
  | SocketDisconnect
  | SocketSend (message : string)
  | SocketSendSync (message : string)
  | Notify (o : observer) (c : callback).

(** ** The monad of engine methods: state, and the calls made in order *)

Definition M (A : Type) : Type := Engine -> A * Engine * list effect.

#[global] Instance M_ret : MRet M := fun A (a : A) e => (a, e, []).

#[global] Instance M_bind : MBind M := fun A B (f : A -> M B) (m : M A) e =>
  let '(a, e1, out1) := m e in
  let '(b, e2, out2) := f a e1 in
  (b, e2, out1 ++ out2).

Definition get : M Engine := fun e => (e, e, []).

Definition modify (f : Engine -> Engine) : M unit := fun e => (tt, f e, []).

Definition emit (x : effect) : M unit := fun e => (tt, e, [x]).

(** The result, final state and calls of a method run from [e]. *)
Definition value {A} (r : A * Engine * list effect) : A := r.1.1.
Definition after {A} (r : A * Engine * list effect) : Engine := r.1.2.
Definition calls {A} (r : A * Engine * list effect) : list effect := r.2.

(** [for( i = 0; i < observers.size(); ++i ) observers[i]->c] *)
Definition notify (observers : list observer) (c : callback) : M unit :=
  fun e => (tt, e, map (fun o => Notify o c) observers).

(** ** The socket *)

(** The text of [p] removed from the front of [s]. *)
Fixpoint strip_prefix (p s : string) : option string :=
  match p with
  | EmptyString => Some s
  | String a p' =>
      match s with
      | String b s' => if Ascii.eqb a b then strip_prefix p' s' else None
      | EmptyString => None
      end
  end.

Definition digit_value (a : Ascii.ascii) : option Z :=
  let n := Z.of_N (Ascii.N_of_ascii a) in
  if (48 <=? n) && (n <=? 57) then Some (n - 48) else None.

(** The decimal number at the front of [s], if there is one. *)
Fixpoint read_number (s : string) (acc : option Z) : option Z :=
  match s with
  | String a s' =>
      match digit_value a with
      | Some d => read_number s' (Some (10 * default 0 acc + d))
      | None => acc
      end
  | EmptyString => acc
  end.

(** Modelled from the spec: [Socket::get_id] of gazeapi_socket.hpp, the
    transport's [assignCorrelationId(message) -> id], which maps a request
    body to its fixed per-kind id.  Every request the engine sends with an
    id starts with the id member; [send_sync] reads -1 as: no id. *)
Definition get_id (message : string) : Z :=
  match strip_prefix ("{" +:+ q "id" +:+ ":") message with
  | Some rest => default (-1) (read_number rest None)
  | None => -1
  end.

(** ** The parser *)

(** The functions of [Parser] (gazeapi_parser.hpp) and the JSON reader are
    used through their interface only.  [read_json] gives [None] when it
    throws.  A parsing function that fills a field gives the value it
    writes, and [None] when it reports failure (or, for the id and the
    description, when the member is absent).  [parse_server_state] starts
    from copies of the current server state and screen; a gaze sample or a
    calibration result is present when it sets [has_gaze_data] or
    [has_calib_result]. *)
Class Parser := {
  ptree : Type;
  read_json : string -> option ptree;
  parse_id : ptree -> option Z;
  parse_description : ptree -> option string;
  parse_category : ptree -> option GazeApiCategory;
  parse_status_code : ptree -> option GazeApiStatusCode;
  parse_request : ptree -> option GazeApiRequest;
  parse_server_state :
    ServerState -> Screen -> ptree ->
    option (ServerState * Screen * option GazeData * option CalibResult);
  parse_calib_result : ptree -> option (option CalibResult)
}.

(** ** Requests *)

(** ["k":"v"] *)
Definition member (k v : string) : string := q k +:+ ":" +:+ q v.

Definition version_request : string :=
  "{" +:+ member "category" "tracker" +:+ "," +:+ member "request" "get"
  +:+ "," +:+ q "values" +:+ ":[" +:+ q "version" +:+ "]}".

Definition set_version_request (version : Z) : string :=
  "{" +:+ q "id" +:+ ":" +:+ pretty SR_SET_VERSION +:+ ","
  +:+ member "category" "tracker" +:+ "," +:+ member "request" "set"
  +:+ "," +:+ q "values" +:+ ":" +:+ "{" +:+ q "version" +:+ ":"
  +:+ pretty version +:+ "}}".

Definition set_screen_request (screen : Screen) : string :=
  "{" +:+ q "id" +:+ ":" +:+ pretty SR_SET_SCREEN +:+ ","
  +:+ member "category" "tracker" +:+ "," +:+ member "request" "set"
  +:+ "," +:+ q "values" +:+ ":" +:+ "{"
  +:+ q "screenindex" +:+ ":" +:+ pretty (screenindex screen) +:+ ","
  +:+ q "screenresw" +:+ ":" +:+ pretty (screenresw screen) +:+ ","
  +:+ q "screenresh" +:+ ":" +:+ pretty (screenresh screen) +:+ ","
  +:+ q "screenpsyw" +:+ ":" +:+ pretty (screenpsyw screen) +:+ ","
  +:+ q "screenpsyh" +:+ ":" +:+ pretty (screenpsyh screen) +:+ "}}".

Definition tracker_state_request : string :=
  "{" +:+ q "id" +:+ ":" +:+ pretty SR_GET_TRACKER_STATE +:+ ","
  +:+ member "category" "tracker" +:+ "," +:+ member "request" "get"
  +:+ "," +:+ q "values" +:+ ":["
  +:+ q "version" +:+ ","
  +:+ q "trackerstate" +:+ ","
  +:+ q "framerate" +:+ ","
  +:+ q "iscalibrated" +:+ ","
  +:+ q "iscalibrating" +:+ ","
  +:+ q "calibresult" +:+ ","
  +:+ q "frame" +:+ ","
  +:+ q "screenindex" +:+ ","
  +:+ q "screenresw" +:+ ","
  +:+ q "screenresh" +:+ ","
  +:+ q "screenpsyw" +:+ ","
  +:+ q "screenpsyh"
  +:+ "]}".

Definition calibration_start_request (point_count : Z) : string :=
  "{" +:+ q "id" +:+ ":" +:+ pretty SR_CALIB_START +:+ ","
  +:+ member "category" "calibration" +:+ ","
  +:+ member "request" "start" +:+ "," +:+ q "values" +:+ ":{"
  +:+ q "pointcount" +:+ ":" +:+ pretty point_count +:+ "}}".

Definition calibration_clear_request : string :=
  "{" +:+ member "category" "calibration" +:+ ","
  +:+ member "request" "clear" +:+ "}".

Definition calibration_abort_request : string :=
  "{" +:+ member "category" "calibration" +:+ ","
  +:+ member "request" "abort" +:+ "}".

Definition calibration_point_start_request (x y : Z) : string :=
  "{" +:+ q "id" +:+ ":" +:+ pretty SR_CALIB_POINT_START +:+ ","
  +:+ member "category" "calibration" +:+ ","
  +:+ member "request" "pointstart" +:+ "," +:+ q "values" +:+ ":{"
  +:+ q "x" +:+ ":" +:+ pretty x +:+ "," +:+ q "y" +:+ ":" +:+ pretty y
  +:+ "}}".

Definition calibration_point_end_request : string :=
  "{" +:+ member "category" "calibration" +:+ ","
  +:+ member "request" "pointend" +:+ "}".

(** The fields asked for after each kind of notification. *)
Definition calibration_change_values : string :=
  q "calibresult" +:+ "," +:+ q "iscalibrated" +:+ "," +:+ q "iscalibrating".

Definition display_change_values : string :=
  q "screenindex" +:+ "," +:+ q "screenresw" +:+ "," +:+ q "screenresh"
  +:+ "," +:+ q "screenpsyw" +:+ "," +:+ q "screenpsyh".

Definition tracker_state_change_values : string := q "trackerstate".

Definition changes_request (values : string) : string :=
  "{" +:+ q "id" +:+ ":" +:+ pretty SR_GET_CHANGES +:+ ","
  +:+ member "category" "tracker" +:+ "," +:+ member "request" "get"
  +:+ "," +:+ q "values" +:+ ":[" +:+ values +:+ "]}".

(** ** What the receive context delivers *)

(** The socket's receive context reports a message or the loss of the
    connection.  Handling a message can itself wait on the socket (the
    request that follows a notification); [during] is what is delivered in
    that wait. *)
#[local] Unset Elimination Schemes.
Inductive event :=
  | EvMessage (message : string) (during : list event)
  | EvDisconnected.
#[local] Set Elimination Schemes.

(** What the socket does to one [connect] call: whether the transport
    connects, and what is delivered during each of its waits. *)
Record connection := {
  socket_connects : bool;
  while_polling : list (list event);
  while_set_version : list event;
  while_get_tracker_state : list event
}.

Definition with_id (v : Z) (m : Message) : Message :=
  {| m_category := m_category m; m_request := m_request m;
     m_statuscode := m_statuscode m; m_id := v;
     m_description := m_description m |}.

Definition with_description (v : string) (m : Message) : Message :=
  {| m_category := m_category m; m_request := m_request m;
     m_statuscode := m_statuscode m; m_id := m_id m;
     m_description := v |}.

Definition with_category (v : GazeApiCategory) (m : Message) : Message :=
  {| m_category := v; m_request := m_request m;
     m_statuscode := m_statuscode m; m_id := m_id m;
     m_description := m_description m |}.

Definition with_statuscode (v : GazeApiStatusCode) (m : Message) : Message :=
  {| m_category := m_category m; m_request := m_request m;
     m_statuscode := v; m_id := m_id m;
     m_description := m_description m |}.

Definition with_request (v : GazeApiRequest) (m : Message) : Message :=
  {| m_category := m_category m; m_request := v;
     m_statuscode := m_statuscode m; m_id := m_id m;
     m_description := m_description m |}.

(** ** GazeApi::Engine *)

Section Engine.

Context `{Parser}.

(** The constructor, with the listeners that have been added. *)
Definition Engine_new (gaze calib_result tracker_state calib_process
    connection_state : list observer) : Engine :=
  {| m_state := AS_STOPPED;
     m_calibration_proxy := CalibrationProxy.new;
     m_port := EmptyString; m_host := EmptyString;
     m_server_proxy := ServerState_zero;
     m_gaze_data := GazeData_zero;
     m_calib_result := CalibResult_clear;
     m_screen := Screen_zero;
     m_sync_requests := ∅;
     gaze_observers := gaze;
     calib_result_observers := calib_result;
     tracker_state_observers := tracker_state;
     calib_process_observers := calib_process;
     connection_state_observers := connection_state |}.

Definition is_running : M bool :=
  e ← get; mret (bool_decide (m_state e = AS_RUNNING)).

(** [m_sync_requests[id] = msg] *)
Definition store_sync_request (id : Z) (msg : Message) : M unit :=
  modify (fun e => set_sync_requests (<[id := msg]> (m_sync_requests e)) e).

(** Reading [m_sync_requests[id]]: [operator[]] of [std::map] inserts a
    default-constructed message when the key is absent. *)
Definition sync_request (id : Z) : M Message :=
  e ← get;
  match m_sync_requests e !! id with
  | Some msg => mret msg
  | None => store_sync_request id Message_new;; mret Message_new
  end.

(** [blocked] is what the receive context does while [m_socket.send_sync]
    holds the caller. *)
Definition send_sync (message : string) (blocked : M unit) : M unit :=
  let id := get_id message in
  e ← get;
  if bool_decide (m_state e ≠ AS_STOPPED) && bool_decide (id ≠ -1) then
    store_sync_request id Message_new;;
    emit (SocketSendSync message);;
    blocked
  else mret tt.

Definition send_async (message : string) : M unit :=
  e ← get;
  if bool_decide (m_state e ≠ AS_STOPPED) then emit (SocketSend message)
  else mret tt.

Definition disconnect : M unit :=
  e ← get;
  if bool_decide (m_state e ≠ AS_STOPPED) then
    modify (set_state AS_STOPPED);;
    emit SocketDisconnect
  else mret tt.

(** The [GAR_GET] branch of [parse] for a tracker reply. *)
Definition parse_tracker_get (root : ptree) : M unit :=
  e ← get;
  match parse_server_state (m_server_proxy e) (m_screen e) root with
  | None => mret tt
  | Some (server_state, screen, gaze_data, calib_result) =>
      let has_state_changed :=
        bool_decide
          (trackerstate server_state ≠ trackerstate (m_server_proxy e)) in
      modify (set_server_proxy server_state);;
      match gaze_data with
      | Some gaze_data =>
          modify (set_gaze_data gaze_data);;
          e ← get;
          notify (gaze_observers e) (on_gaze_data (m_gaze_data e))
      | None => mret tt
      end;;
      match calib_result with
      | Some calib_result =>
          modify (set_calib_result calib_result);;
          e ← get;
          notify (calib_result_observers e)
            (on_calibration_changed (result (m_calib_result e))
               (m_calib_result e))
      | None => mret tt
      end;;
      e ← get;
      (if bool_decide (screen ≠ m_screen e) then
         modify (set_screen_field screen);;
         e ← get;
         notify (tracker_state_observers e)
           (on_screen_state_changed (m_screen e))
       else mret tt);;
      if has_state_changed then
        e ← get;
        notify (tracker_state_observers e)
          (on_tracker_connection_changed (trackerstate (m_server_proxy e)))
      else mret tt
  end.

(** The [GAR_POINTEND] branch of [parse] for a calibration reply; the
    result tells whether the branch returned from [parse]. *)
Definition parse_calibration_point_end (root : ptree) : M bool :=
  modify (fun e =>
    set_calibration_proxy
      (CalibrationProxy.point_end (m_calibration_proxy e)) e);;
  e ← get;
  let progress := CalibrationProxy.get_progress (m_calibration_proxy e) in
  notify (calib_process_observers e) (on_calibration_progress progress);;
  match parse_calib_result root with
  | None => mret true
  | Some None => mret false
  | Some (Some calib_result) =>
      (if result calib_result then
         modify (set_calib_result calib_result);;
         e ← get;
         notify (calib_result_observers e)
           (on_calibration_changed (result (m_calib_result e))
              (m_calib_result e));;
         modify (fun e =>
           set_calibration_proxy
             (CalibrationProxy.clear (m_calibration_proxy e)) e)
       else mret tt);;
      e ← get;
      notify (calib_process_observers e)
        (on_calibration_result (result calib_result) calib_result);;
      mret false
  end.

(** The part of [parse] for a calibration reply. *)
Definition parse_calibration (reply : Message) (root : ptree) : M unit :=
  (if is_request reply GAR_START then
     e ← get;
     notify (calib_process_observers e) on_calibration_started
   else mret tt);;
  returned ←
    (if is_request reply GAR_POINTEND then parse_calibration_point_end root
     else mret false);
  if returned : bool then mret tt
  else
    (if is_request reply GAR_ABORT then
       modify (fun e =>
         set_calibration_proxy
           (CalibrationProxy.clear (m_calibration_proxy e)) e)
     else mret tt);;
    if is_request reply GAR_CLEAR then
      modify (set_calib_result CalibResult_clear)
    else mret tt.

(** The fields to ask for after a notification (the [switch] of
    [parse]). *)
Definition changed_values (statuscode : GazeApiStatusCode) : string :=
  match statuscode with
  | GASC_CALIBRATION_CHANGE => calibration_change_values
  | GASC_DISPLAY_CHANGE => display_change_values
  | GASC_TRACKER_STATE_CHANGE => tracker_state_change_values
  | _ => EmptyString
  end.

(** [parse( reply, json_message )]: the result is the reply it has filled
    in, or [None] when [read_json] throws. *)
Definition parse (json_message : string) (blocked : M unit)
  : M (option Message) :=
  match read_json json_message with
  | None => mret None
  | Some root =>
      let reply := Message_new in
      let reply := with_id (default (m_id reply) (parse_id root)) reply in
      let reply :=
        with_description
          (default (m_description reply) (parse_description root)) reply in
      match parse_category root with
      | None => mret (Some reply)
      | Some category =>
          let reply := with_category category reply in
          match parse_status_code root with
          | None => mret (Some reply)
          | Some statuscode =>
              let reply := with_statuscode statuscode reply in
              if is_statuscode reply GASC_ERROR
                 && negb (is_notification reply)
              then mret (Some reply)
              else if is_notification reply then
                send_sync
                  (changes_request (changed_values (m_statuscode reply)))
                  blocked;;
                mret (Some reply)
              else
                match parse_request root with
                | None => mret (Some reply)
                | Some request =>
                    let reply := with_request request reply in
                    if is_category reply GAC_TRACKER then
                      (if is_request reply GAR_SET then mret tt
                       else if is_request reply GAR_GET then
                         parse_tracker_get root
                       else mret tt);;
                      mret (Some reply)
                    else if is_category reply GAC_CALIBRATION then
                      parse_calibration reply root;;
                      mret (Some reply)
                    else mret (Some reply)
                end
          end
      end
  end.

Definition on_message (message : string) (blocked : M unit) : M unit :=
  r ← parse message blocked;
  match r with
  | Some msg =>
      if has_id msg then store_sync_request (m_id msg) msg else mret tt
  | None => mret tt
  end.

Definition on_disconnected : M unit :=
  disconnect;;
  e ← get;
  notify (connection_state_observers e) (on_connection_state_changed false).

(** The receive context handling one event. *)
Fixpoint receive (ev : event) : M unit :=
  match ev with
  | EvMessage message during =>
      on_message message
        ((fix receive_all (l : list event) : M unit :=
            match l with
            | [] => mret tt
            | ev' :: l' => receive ev';; receive_all l'
            end) during)
  | EvDisconnected => on_disconnected
  end.

(** The receive context handling a sequence of events. *)
Fixpoint receive_all (l : list event) : M unit :=
  match l with
  | [] => mret tt
  | ev :: l' => receive ev;; receive_all l'
  end.

(** [wait] sleeps of 1 ms, as long as no version has arrived; [sleeps]
    gives what the receive context delivers during each of them. *)
Fixpoint poll_version (wait : nat) (sleeps : list (list event)) : M unit :=
  match wait with
  | O => mret tt
  | S wait' =>
      e ← get;
      if version (m_server_proxy e) =? 0 then
        receive_all (hd [] sleeps);;
        poll_version wait' (tl sleeps)
      else mret tt
  end.

(** This method is backwards compatible with all versions of the server
    API. *)
Definition get_default_version (sleeps : list (list event)) : M Z :=
  e ← get;
  let version0 := version (m_server_proxy e) in
  modify (fun e => set_server_proxy (set_version_field 0 (m_server_proxy e)) e);;
  send_async version_request;;
  poll_version 5000 sleeps;;
  e ← get;
  let reported := version (m_server_proxy e) in
  modify (fun e =>
    set_server_proxy (set_version_field version0 (m_server_proxy e)) e);;
  mret reported.

Definition set_version (version : Z) (during : list event) : M bool :=
  send_sync (set_version_request version) (receive_all during);;
  msg ← sync_request SR_SET_VERSION;
  mret (is_statuscode msg GASC_OK).

Definition set_screen (screen : Screen) (during : list event) : M bool :=
  send_sync (set_screen_request screen) (receive_all during);;
  msg ← sync_request SR_SET_SCREEN;
  mret (is_statuscode msg GASC_OK).

Definition get_screen : M Screen := e ← get; mret (m_screen e).

Definition get_tracker_state (during : list event) : M unit :=
  send_sync tracker_state_request (receive_all during).

Definition get_frame : M GazeData := e ← get; mret (m_gaze_data e).

Definition get_calib_result : M CalibResult :=
  e ← get; mret (m_calib_result e).

Definition update_server_state (during : list event) : M ServerState :=
  get_tracker_state during;;
  e ← get; mret (m_server_proxy e).

Definition get_server_state : M ServerState :=
  e ← get; mret (m_server_proxy e).

(** [point_count] is an [int]; the proxy takes it as a [size_t]. *)
Definition calibration_start (point_count : Z) (during : list event)
  : M bool :=
  modify (fun e =>
    set_calibration_proxy
      (CalibrationProxy.start_calibration (to_size_t point_count)
         (m_calibration_proxy e)) e);;
  send_sync (calibration_start_request point_count) (receive_all during);;
  msg ← sync_request SR_CALIB_START;
  mret (is_statuscode msg GASC_OK).

Definition calibration_clear : M unit :=
  send_async calibration_clear_request.

Definition calibration_abort : M unit :=
  send_async calibration_abort_request.

Definition calibration_point_start (x y : Z) (during : list event)
  : M bool :=
  send_sync (calibration_point_start_request x y) (receive_all during);;
  msg ← sync_request SR_CALIB_POINT_START;
  mret (is_statuscode msg GASC_OK).

Definition calibration_point_end : M unit :=
  send_async calibration_point_end_request.

(** The fields [connect] sets before it asks the socket to connect. *)
Definition connect_prepare (host port : string) (e : Engine) : Engine :=
  set_sync_requests ∅ (set_endpoint host port e).

(** The fields [connect] sets once the socket has connected. *)
Definition connect_opened (e : Engine) : Engine :=
  set_calib_result CalibResult_clear
    (set_screen_field Screen_zero
       (set_gaze_data GazeData_zero
          (set_server_proxy ServerState_zero
             (set_state AS_RUNNING e)))).

Definition connect (host port : string) (c : connection) : M bool :=
  e ← get;
  if bool_decide (AS_STOPPED ≠ m_state e) then mret false
  else
    modify (connect_prepare host port);;
    emit (SocketConnect host port);;
    let success := socket_connects c in
    if success then
      modify connect_opened;;
      reported ← get_default_version (while_polling c);
      if reported <? VERSION then disconnect;; mret false
      else
        accepted ← set_version VERSION (while_set_version c);
        if negb accepted then disconnect;; mret false
        else
          e ← get;
          notify (connection_state_observers e)
            (on_connection_state_changed true);;
          get_tracker_state (while_get_tracker_state c);;
          mret success
    else mret success.

End Engine.

(** ** A small codec for running examples

    The members a decoded message can carry, and a reader that knows a
    handful of wire messages by name. *)

Record Json := {
  j_id : option Z;
  j_category : option GazeApiCategory;
  j_statuscode : option GazeApiStatusCode;
  j_request : option GazeApiRequest;
  j_version : option Z;
  j_trackerstate : option Z;
  j_screen : option Screen;
  j_frame : option GazeData;
  j_calibresult : option CalibResult
}.

Definition reply (id : option Z) (category : GazeApiCategory)
    (request : GazeApiRequest) : Json :=
  {| j_id := id; j_category := Some category; j_statuscode := Some GASC_OK;
     j_request := Some request; j_version := None; j_trackerstate := None;
     j_screen := None; j_frame := None; j_calibresult := None |}.

Definition notification (statuscode : GazeApiStatusCode) : Json :=
  {| j_id := None; j_category := Some GAC_TRACKER;
     j_statuscode := Some statuscode;
     j_request := None; j_version := None; j_trackerstate := None;
     j_screen := None; j_frame := None; j_calibresult := None |}.

Definition carrying_version (v : Z) (j : Json) : Json :=
  {| j_id := j_id j; j_category := j_category j;
     j_statuscode := j_statuscode j; j_request := j_request j;
     j_version := Some v; j_trackerstate := j_trackerstate j;
     j_screen := j_screen j; j_frame := j_frame j;
     j_calibresult := j_calibresult j |}.

Definition carrying_trackerstate (v : Z) (j : Json) : Json :=
  {| j_id := j_id j; j_category := j_category j;
     j_statuscode := j_statuscode j; j_request := j_request j;
     j_version := j_version j; j_trackerstate := Some v;
     j_screen := j_screen j; j_frame := j_frame j;
     j_calibresult := j_calibresult j |}.

Definition carrying_screen (v : Screen) (j : Json) : Json :=
  {| j_id := j_id j; j_category := j_category j;
     j_statuscode := j_statuscode j; j_request := j_request j;
     j_version := j_version j; j_trackerstate := j_trackerstate j;
     j_screen := Some v; j_frame := j_frame j;
     j_calibresult := j_calibresult j |}.

Definition carrying_calibresult (v : CalibResult) (j : Json) : Json :=
  {| j_id := j_id j; j_category := j_category j;
     j_statuscode := j_statuscode j; j_request := j_request j;
     j_version := j_version j; j_trackerstate := j_trackerstate j;
     j_screen := j_screen j; j_frame := j_frame j;
     j_calibresult := Some v |}.

Definition with_status (v : option GazeApiStatusCode) (j : Json) : Json :=
  {| j_id := j_id j; j_category := j_category j;
     j_statuscode := v; j_request := j_request j;
     j_version := j_version j; j_trackerstate := j_trackerstate j;
     j_screen := j_screen j; j_frame := j_frame j;
     j_calibresult := j_calibresult j |}.

Definition without_category (j : Json) : Json :=
  {| j_id := j_id j; j_category := None;
     j_statuscode := j_statuscode j; j_request := j_request j;
     j_version := j_version j; j_trackerstate := j_trackerstate j;
     j_screen := j_screen j; j_frame := j_frame j;
     j_calibresult := j_calibresult j |}.

Definition wide_screen : Screen :=
  {| screenindex := 1; screenresw := 1920; screenresh := 1080;
     screenpsyw := 53; screenpsyh := 30 |}.

Definition failed_result : CalibResult :=
  {| result := false; calibpoints := [3; 9] |}.

Definition good_result : CalibResult :=
  {| result := true; calibpoints := [1; 1] |}.

Definition sample_messages : list (string * Json) :=
  [ ("version 1", carrying_version 1 (reply None GAC_TRACKER GAR_GET));
    ("version 2", carrying_version 2 (reply None GAC_TRACKER GAR_GET));
    ("set_version ok", reply (Some SR_SET_VERSION) GAC_TRACKER GAR_SET);
    ("set_screen ok", reply (Some SR_SET_SCREEN) GAC_TRACKER GAR_SET);
    ("start ok", reply (Some SR_CALIB_START) GAC_CALIBRATION GAR_START);
    ("pointend", reply None GAC_CALIBRATION GAR_POINTEND);
    ("pointend failed",
     carrying_calibresult failed_result
       (reply None GAC_CALIBRATION GAR_POINTEND));
    ("pointend done",
     carrying_calibresult good_result
       (reply None GAC_CALIBRATION GAR_POINTEND));
    ("screen",
     carrying_screen wide_screen
       (reply (Some SR_GET_CHANGES) GAC_TRACKER GAR_GET));
    ("trackerstate 1",
     carrying_trackerstate 1
       (reply (Some SR_GET_CHANGES) GAC_TRACKER GAR_GET));
    ("calibration changed", notification GASC_CALIBRATION_CHANGE);
    ("display changed", notification GASC_DISPLAY_CHANGE);
    ("tracker changed", notification GASC_TRACKER_STATE_CHANGE);
    ("no category", without_category (reply None GAC_TRACKER GAR_GET));
    ("no status", with_status None (reply None GAC_TRACKER GAR_GET));
    ("error",
     carrying_screen wide_screen
       (with_status (Some GASC_ERROR) (reply None GAC_TRACKER GAR_GET))) ].

Definition sample_read_json (message : string) : option Json :=
  snd <$> List.find (fun p => String.eqb (fst p) message) sample_messages.

Definition sample_parse_server_state (server_state : ServerState)
    (screen : Screen) (j : Json)
  : option (ServerState * Screen * option GazeData * option CalibResult) :=
  Some
    ({| version := default (version server_state) (j_version j);
        trackerstate :=
          default (trackerstate server_state) (j_trackerstate j);
        framerate := framerate server_state;
        iscalibrated := iscalibrated server_state;
        iscalibrating := iscalibrating server_state |},
     default screen (j_screen j), j_frame j, j_calibresult j).

Definition sample_parser : Parser :=
  {| ptree := Json;
     read_json := sample_read_json;
     parse_id := j_id;
     parse_description := fun _ => None;
     parse_category := j_category;
     parse_status_code := j_statuscode;
     parse_request := j_request;
     parse_server_state := sample_parse_server_state;
     parse_calib_result := fun j => Some (j_calibresult j) |}.

(** A server that reports version 1 during the second sleep. *)
Definition old_server : connection :=
  {| socket_connects := true;
     while_polling := [[]; [EvMessage "version 1" []]];
     while_set_version := [];
     while_get_tracker_state := [] |}.

(** A server that reports version 2, accepts it, and answers the baseline
    query with its screen. *)
Definition current_server : connection :=
  {| socket_connects := true;
     while_polling := [[]; [EvMessage "version 2" []]];
     while_set_version := [EvMessage "set_version ok" []];
     while_get_tracker_state := [EvMessage "screen" []] |}.

(** An engine with one listener of each kind, numbered 1 to 5. *)
Definition sample_engine : Engine :=
  @Engine_new [1%nat] [2%nat] [3%nat] [4%nat] [5%nat].

(** The same engine while connected. *)
Definition sample_running : Engine := set_state AS_RUNNING sample_engine.

(** ** Vocabulary of the statements *)

Section Vocabulary.

Context `{Parser}.

(** The snapshot store. *)
Definition snapshots (e : Engine)
  : ServerState * GazeData * CalibResult * Screen :=
  (m_server_proxy e, m_gaze_data e, m_calib_result e, m_screen e).

(** A message that is not JSON, or whose category or status code cannot
    be parsed, or that carries the error status. *)
Inductive discarded (json : string) : Prop :=
  | not_json :
      read_json json = None -> discarded json
  | no_category root :
      read_json json = Some root -> parse_category root = None ->
      discarded json
  | no_status_code root :
      read_json json = Some root -> parse_status_code root = None ->
      discarded json
  | error_status root :
      read_json json = Some root ->
      parse_status_code root = Some GASC_ERROR ->
      discarded json.

(** A well-formed reply to a tracker/get request. *)
Definition tracker_get_reply (json : string) (root : ptree) : Prop :=
  read_json json = Some root
  /\ parse_category root = Some GAC_TRACKER
  /\ parse_status_code root = Some GASC_OK
  /\ parse_request root = Some GAR_GET.

(** A well-formed reply to a calibration/pointend request. *)
Definition point_end_reply (json : string) (root : ptree) : Prop :=
  read_json json = Some root
  /\ parse_category root = Some GAC_CALIBRATION
  /\ parse_status_code root = Some GASC_OK
  /\ parse_request root = Some GAR_POINTEND.

Definition is_screen_notification (x : effect) : bool :=
  match x with
  | Notify _ (on_screen_state_changed _) => true
  | _ => false
  end.

Definition is_tracker_notification (x : effect) : bool :=
  match x with
  | Notify _ (on_tracker_connection_changed _) => true
  | _ => false
  end.

Definition is_progress_notification (x : effect) : bool :=
  match x with
  | Notify _ (on_calibration_progress _) => true
  | _ => false
  end.

Definition is_calibration_changed (x : effect) : bool :=
  match x with
  | Notify _ (on_calibration_changed _ _) => true
  | _ => false
  end.

(** [c] delivered once to each of [observers], in their order. *)
Definition once_each (observers : list observer) (c : callback)
  : list effect :=
  map (fun o => Notify o c) observers.

Definition is_notification_status (s : GazeApiStatusCode) : bool :=
  match s with
  | GASC_CALIBRATION_CHANGE | GASC_DISPLAY_CHANGE
  | GASC_TRACKER_STATE_CHANGE => true
  | _ => false
  end.

(** The fields that a notification makes stale: the calibration result
    and the two calibration flags; the five screen fields; the tracker
    state. *)
Definition relevant_fields (s : GazeApiStatusCode) : list string :=
  match s with
  | GASC_CALIBRATION_CHANGE =>
      ["calibresult"; "iscalibrated"; "iscalibrating"]
  | GASC_DISPLAY_CHANGE =>
      ["screenindex"; "screenresw"; "screenresh"; "screenpsyw";
       "screenpsyh"]
  | GASC_TRACKER_STATE_CHANGE => ["trackerstate"]
  | _ => []
  end.

Fixpoint commas (l : list string) : string :=
  match l with
  | [] => EmptyString
  | [x] => x
  | x :: l' => x +:+ "," +:+ commas l'
  end.

(** A tracker/get request with id [id] for exactly [fields]. *)
Definition tracker_get_request (id : Z) (fields : list string) : string :=
  "{" +:+ q "id" +:+ ":" +:+ pretty id +:+ ","
  +:+ member "category" "tracker" +:+ "," +:+ member "request" "get"
  +:+ "," +:+ q "values" +:+ ":[" +:+ commas (map q fields) +:+ "]}".

(** The end of [on_message]: a reply that carries an id is stored under
    it. *)
Definition correlate (r : option Message) (e : Engine) : Engine :=
  match r with
  | Some msg =>
      if has_id msg
      then set_sync_requests (<[m_id msg := msg]> (m_sync_requests e)) e
      else e
  | None => e
  end.

(** The calls of the [GAR_GET] branch, one group per [if] of the code. *)
Definition tracker_get_calls (e : Engine) (server_state : ServerState)
    (screen : Screen) (gaze_data : option GazeData)
    (calib_result : option CalibResult) : list effect :=
  match gaze_data with
  | Some g => once_each (gaze_observers e) (on_gaze_data g)
  | None => []
  end
  ++ match calib_result with
     | Some c =>
         once_each (calib_result_observers e)
           (on_calibration_changed (result c) c)
     | None => []
     end
  ++ (if decide (screen = m_screen e) then []
      else once_each (tracker_state_observers e)
             (on_screen_state_changed screen))
  ++ (if decide (trackerstate server_state
                 = trackerstate (m_server_proxy e)) then []
      else once_each (tracker_state_observers e)
             (on_tracker_connection_changed (trackerstate server_state))).

(** The calls of the [GAR_POINTEND] branch. *)
Definition point_end_calls (e : Engine)
    (parsed : option (option CalibResult)) : list effect :=
  once_each (calib_process_observers e)
    (on_calibration_progress
       (CalibrationProxy.get_progress
          (CalibrationProxy.point_end (m_calibration_proxy e))))
  ++ match parsed with
     | Some (Some calib_result) =>
         (if result calib_result then
            once_each (calib_result_observers e)
              (on_calibration_changed (result calib_result) calib_result)
          else [])
         ++ once_each (calib_process_observers e)
              (on_calibration_result (result calib_result) calib_result)
     | _ => []
     end.

(** [ITracker] of example_eye_reader.cpp: a tracker-state listener that
    keeps the last state it was told in its field [tracker_state], and on
    [on_tracker_connection_changed] prints the transition from that state
    to the one it is told.  [ITracker_observe o calls tracker_state] is what
    the listener with handle [o] prints over [calls], and its field
    afterwards. *)
Fixpoint ITracker_observe (o : observer) (calls : list effect)
    (tracker_state : Z) : list (Z * Z) * Z :=
  match calls with
  | [] => ([], tracker_state)
  | Notify o' (on_tracker_connection_changed tracker_state') :: calls' =>
      if decide (o' = o) then
        let '(printed, final) :=
          ITracker_observe o calls' tracker_state' in
        ((tracker_state, tracker_state') :: printed, final)
      else ITracker_observe o calls' tracker_state
  | _ :: calls' => ITracker_observe o calls' tracker_state
  end.

(** The baseline query of the full tracker state is not among the calls
    of [m], from any state. *)
Definition no_state_query {A} (m : M A) : Prop :=
  forall e, ~ In (SocketSendSync tracker_state_request) (calls (m e)).

End Vocabulary.

(** Induction on events, with the events delivered during a message. *)
Fixpoint event_nested_ind (P : event -> Prop)
    (Hmessage : forall message during,
       Forall P during -> P (EvMessage message during))
    (Hdisconnected : P EvDisconnected) (ev : event) : P ev :=
  match ev with
  | EvMessage message during =>
      Hmessage message during
        ((fix all (l : list event) : Forall P l :=
            match l with
            | [] => @List.Forall_nil _ P
            | ev' :: l' =>
                @List.Forall_cons _ P ev' l'
                  (event_nested_ind P Hmessage Hdisconnected ev') (all l')
            end) during)
  | EvDisconnected => Hdisconnected
  end.

(** ** GazeApi: the public face of the engine

    Every method of [GazeApi] hands its arguments to the engine method of
    the same name; the three [connect] overloads also choose the host and
    write the port in decimal. *)

Section GazeApi.

Context `{Parser}.

(** [Engine::connect( port )] *)
Definition connect_local (port : string) (c : connection) : M bool :=
  connect "127.0.0.1" port c.

(** An argument taken as an [unsigned short], 16 bits wide. *)
Definition to_unsigned_short (z : Z) : Z := z mod 2 ^ 16.

(** [GazeApi::connect( host, port )] *)
Definition GazeApi_connect_host (host : string) (port : Z) (c : connection)
  : M bool :=
  connect host (pretty (to_unsigned_short port)) c.

(** [GazeApi::connect( port )] *)
Definition GazeApi_connect_port (port : Z) (c : connection) : M bool :=
  connect_local (pretty (to_unsigned_short port)) c.

(** [GazeApi::connect()] *)
Definition GazeApi_connect (c : connection) : M bool :=
  GazeApi_connect_port 6555 c.

(** [GazeApi::is_connected()] *)
Definition GazeApi_is_connected : M bool := is_running.

End GazeApi.

(** ** The demo reader (example_eye_reader.cpp) *)

(** The five numbers that [MyGaze::on_gaze_data] prints after the state:
    [gaze_data.state & (1 << (4 - i))] for [i] from 0 to 4. *)
Definition printed_state_bits (state : Z) : list Z :=
  map (fun i => Z.land state (Z.shiftl 1 (4 - i))) [0; 1; 2; 3; 4].

(** ** More vocabulary of the statements *)

Section MoreVocabulary.

Context `{Parser}.

(** The five listener registries. *)
Definition registries (e : Engine)
  : list observer * list observer * list observer * list observer
    * list observer :=
  (gaze_observers e, calib_result_observers e, tracker_state_observers e,
   calib_process_observers e, connection_state_observers e).

(** From [e], the method [m] keeps [I] and makes only calls that satisfy
    [C]. *)
Definition keeps_at {A} (I : Engine -> Prop) (C : effect -> Prop)
    (m : M A) (e : Engine) : Prop :=
  I e -> I (after (m e)) /\ Forall C (calls (m e)).

Definition keeps {A} (I : Engine -> Prop) (C : effect -> Prop) (m : M A)
  : Prop :=
  forall e, keeps_at I C m e.

(** A call on a listener, not on the socket. *)
Definition is_listener_call (x : effect) : Prop :=
  match x with
  | Notify _ _ => True
  | _ => False
  end.

(** The calls the receive context can make: any listener call except the
    report that the connection is up, the socket's disconnect, and the
    request that follows a notification. *)
Definition is_receive_call (x : effect) : Prop :=
  match x with
  | Notify _ c => c <> on_connection_state_changed true
  | SocketDisconnect => True
  | SocketSendSync message =>
      exists s, message = changes_request (changed_values s)
  | _ => False
  end.

(** A well-formed reply (status OK, category and request parsed) for which
    [parse] has no branch: a tracker reply other than to a get, a
    calibration reply to a pointstart, get, set or unknown request, or a
    reply of unknown category. *)
Definition plain_acknowledgement (json : string) (root : ptree) : Prop :=
  read_json json = Some root
  /\ parse_status_code root = Some GASC_OK
  /\ exists category request,
       parse_category root = Some category
       /\ parse_request root = Some request
       /\ match category with
          | GAC_TRACKER => request <> GAR_GET
          | GAC_CALIBRATION =>
              request = GAR_POINTSTART \/ request = GAR_GET
              \/ request = GAR_SET \/ request = GAR_UNKNOWN
          | GAC_UNKNOWN => True
          end.

(** A well-formed reply of the calibration category to [request]. *)
Definition calibration_reply (request : GazeApiRequest) (json : string)
    (root : ptree) : Prop :=
  read_json json = Some root
  /\ parse_category root = Some GAC_CALIBRATION
  /\ parse_status_code root = Some GASC_OK
  /\ parse_request root = Some request.

(** For the engine [e]: a reply with status OK whose request does not
    parse, or a reply to tracker/get whose values do not parse. *)
Definition broken_reply (e : Engine) (json : string) (root : ptree) : Prop :=
  read_json json = Some root
  /\ parse_status_code root = Some GASC_OK
  /\ exists category,
       parse_category root = Some category
       /\ (parse_request root = None
           \/ (category = GAC_TRACKER
               /\ parse_request root = Some GAR_GET
               /\ parse_server_state (m_server_proxy e) (m_screen e) root
                  = None)).


(** The status code that [parse] leaves in the reply: the parsed one
    when the category and the status code both parse, and the one of a
    fresh message, the error status, when either does not. *)
Definition status_read (root : ptree) : GazeApiStatusCode :=
  match parse_category root, parse_status_code root with
  | Some _, Some statuscode => statuscode
  | _, _ => GASC_ERROR
  end.

Definition is_gaze_notification (x : effect) : bool :=
  match x with
  | Notify _ (on_gaze_data _) => true
  | _ => false
  end.

End MoreVocabulary.

(** ** More messages for running examples *)

Definition sample_frame : GazeData :=
  {| time := 1000; state := 7; raw := (320, 240); avg := (318, 242) |}.

Definition carrying_frame (v : GazeData) (j : Json) : Json :=
  {| j_id := j_id j; j_category := j_category j;
     j_statuscode := j_statuscode j; j_request := j_request j;
     j_version := j_version j; j_trackerstate := j_trackerstate j;
     j_screen := j_screen j; j_frame := Some v;
     j_calibresult := j_calibresult j |}.

Definition without_request (j : Json) : Json :=
  {| j_id := j_id j; j_category := j_category j;
     j_statuscode := j_statuscode j; j_request := None;
     j_version := j_version j; j_trackerstate := j_trackerstate j;
     j_screen := j_screen j; j_frame := j_frame j;
     j_calibresult := j_calibresult j |}.

Definition more_messages : list (string * Json) :=
  [ ("abort ok", reply None GAC_CALIBRATION GAR_ABORT);
    ("clear ok", reply None GAC_CALIBRATION GAR_CLEAR);
    ("pointstart ok",
     reply (Some SR_CALIB_POINT_START) GAC_CALIBRATION GAR_POINTSTART);
    ("frame",
     carrying_frame sample_frame
       (carrying_calibresult failed_result
          (reply None GAC_TRACKER GAR_GET)));
    ("no request", without_request (reply None GAC_TRACKER GAR_GET));
    ("no category, id",
     without_category (reply (Some SR_SET_SCREEN) GAC_TRACKER GAR_SET)) ].

Definition more_read_json (message : string) : option Json :=
  snd <$> List.find (fun p => String.eqb (fst p) message)
            (sample_messages ++ more_messages).

(** The sample codec with the additional messages. *)
Definition more_parser : Parser :=
  {| ptree := Json;
     read_json := more_read_json;
     parse_id := j_id;
     parse_description := fun _ => None;
     parse_category := j_category;
     parse_status_code := j_statuscode;
     parse_request := j_request;
     parse_server_state := sample_parse_server_state;
     parse_calib_result := fun j => Some (j_calibresult j) |}.

(** A server that connects and stays silent. *)
Definition silent_server : connection :=
  {| socket_connects := true;
     while_polling := [];
     while_set_version := [];
     while_get_tracker_state := [] |}.

(** ** Running the monad *)

Lemma run_bind {A B} (m : M A) (f : A -> M B) e :
  (m ≫= f) e =
  let '(a, e1, out1) := m e in
  let '(b, e2, out2) := f a e1 in (b, e2, out1 ++ out2).
Proof. reflexivity. Qed.

Lemma run_ret {A} (a : A) e : (mret a : M A) e = (a, e, []).
Proof. reflexivity. Qed.

Ltac run :=
  repeat first
    [ progress cbn [mbind mret M_bind M_ret get modify emit notify
                    value after calls fst snd app]
    | progress unfold mbind, mret, M_bind, M_ret, get, modify, emit, notify,
        value, after, calls ].

Section Lifecycle.

Context `{Parser}.

Lemma disconnect_stopped (e : Engine) :
  m_state e = AS_STOPPED -> disconnect e = (tt, e, []).
Proof.
  intros Hs. unfold disconnect. run.
  rewrite bool_decide_eq_false_2 by (intros Hn; apply Hn, Hs).
  reflexivity.
Qed.

Lemma disconnect_not_stopped (e : Engine) :
  m_state e <> AS_STOPPED ->
  disconnect e = (tt, set_state AS_STOPPED e, [SocketDisconnect]).
Proof.
  intros Hs. unfold disconnect. run.
  rewrite bool_decide_eq_true_2 by exact Hs.
  reflexivity.
Qed.

Lemma disconnect_stops (e : Engine) :
  m_state (after (disconnect e)) = AS_STOPPED.
Proof.
  destruct (decide (m_state e = AS_STOPPED)) as [Hs|Hs].
  - rewrite disconnect_stopped by exact Hs. exact Hs.
  - rewrite disconnect_not_stopped by exact Hs. reflexivity.
Qed.

(** C9. [disconnect()] is idempotent.  From a state other than Stopped it
    moves to Stopped and tells the socket to disconnect, and does nothing
    else; from Stopped it changes nothing and calls nothing; a second
    [disconnect()] right after a first one is of the second kind, so two
    calls leave the state of one. *)
Theorem disconnect_idempotent (e : Engine) :
  disconnect e =
    (if decide (m_state e = AS_STOPPED) then (tt, e, [])
     else (tt, set_state AS_STOPPED e, [SocketDisconnect]))
  /\ m_state (after (disconnect e)) = AS_STOPPED
  /\ disconnect (after (disconnect e)) = (tt, after (disconnect e), [])
  /\ after ((disconnect;; disconnect) e) = after (disconnect e).
Proof.
  assert (Hagain : disconnect (after (disconnect e))
                   = (tt, after (disconnect e), []))
    by apply disconnect_stopped, disconnect_stops.
  repeat split.
  - destruct (decide (m_state e = AS_STOPPED)) as [Hs|Hs].
    + apply disconnect_stopped, Hs.
    + apply disconnect_not_stopped, Hs.
  - apply disconnect_stops.
  - exact Hagain.
  - rewrite run_bind.
    destruct (disconnect e) as [[[] e1] out1] eqn:Hd.
    change (after (tt, e1, out1)) with e1 in Hagain.
    rewrite Hagain. reflexivity.
Qed.

End Lifecycle.

(** ** The dispatcher *)

Section Dispatcher.

Context `{Parser}.

Lemma on_message_run json blocked e :
  on_message json blocked e =
    (tt,
     correlate (value (parse json blocked e)) (after (parse json blocked e)),
     calls (parse json blocked e)).
Proof.
  unfold on_message. rewrite run_bind.
  destruct (parse json blocked e) as [[[msg|] e1] out1]; run.
  - unfold correlate, store_sync_request.
    destruct (has_id msg); run; rewrite app_nil_r; reflexivity.
  - rewrite app_nil_r. reflexivity.
Qed.

Lemma on_message_calls json blocked e :
  calls (on_message json blocked e) = calls (parse json blocked e).
Proof. rewrite on_message_run. reflexivity. Qed.

Lemma on_message_after json blocked e :
  after (on_message json blocked e) =
    correlate (value (parse json blocked e)) (after (parse json blocked e)).
Proof. rewrite on_message_run. reflexivity. Qed.

Lemma correlate_frame r e :
  snapshots (correlate r e) = snapshots e
  /\ m_calibration_proxy (correlate r e) = m_calibration_proxy e
  /\ m_state (correlate r e) = m_state e.
Proof.
  unfold correlate. destruct r as [msg|]; [destruct (has_id msg)|]; auto.
Qed.

Lemma parse_discarded json blocked e :
  discarded json ->
  after (parse json blocked e) = e /\ calls (parse json blocked e) = [].
Proof.
  intros Hd. unfold parse.
  destruct Hd as [Hj|root Hj Hc|root Hj Hs|root Hj Hs]; rewrite Hj.
  - auto.
  - rewrite Hc. auto.
  - rewrite Hs. destruct (parse_category root); auto.
  - rewrite Hs. destruct (parse_category root); auto.
Qed.

(** C7. A message that cannot be read, whose category or status code
    cannot be parsed, or that carries the error status, is discarded
    silently: the engine calls neither a listener nor the socket, and the
    four snapshots (server state, gaze data, calibration result, screen),
    the calibration progress and the engine state are as before. *)
Theorem discarded_silently json blocked e :
  discarded json ->
  calls (on_message json blocked e) = []
  /\ snapshots (after (on_message json blocked e)) = snapshots e
  /\ m_calibration_proxy (after (on_message json blocked e))
     = m_calibration_proxy e
  /\ m_state (after (on_message json blocked e)) = m_state e.
Proof.
  intros Hd. rewrite on_message_calls, on_message_after.
  destruct (parse_discarded json blocked e Hd) as [-> ->].
  split; [reflexivity|]. apply correlate_frame.
Qed.

(** *** Classifying a reply *)

Lemma is_statuscode_with_statuscode s s' m :
  is_statuscode (with_statuscode s m) s' = bool_decide (s = s').
Proof. reflexivity. Qed.

Lemma is_notification_with_statuscode s m :
  is_notification (with_statuscode s m) = is_notification_status s.
Proof. destruct s; reflexivity. Qed.

Lemma is_category_with_request c c' r s m :
  is_category (with_request r (with_statuscode s (with_category c m))) c'
  = bool_decide (c = c').
Proof. reflexivity. Qed.

Lemma is_request_with_request r r' m :
  is_request (with_request r m) r' = bool_decide (r = r').
Proof. reflexivity. Qed.

Ltac classify :=
  repeat first
    [ rewrite is_statuscode_with_statuscode
    | rewrite is_notification_with_statuscode
    | rewrite is_category_with_request
    | rewrite is_request_with_request
    | rewrite bool_decide_eq_true_2 by reflexivity
    | rewrite bool_decide_eq_false_2 by discriminate
    | progress cbn [is_notification_status andb negb orb] ].

(** *** Notifications *)

Lemma changes_request_fields s :
  is_notification_status s = true ->
  changes_request (changed_values s)
  = tracker_get_request SR_GET_CHANGES (relevant_fields s).
Proof. destruct s; intros Hs; try discriminate Hs; vm_compute; reflexivity. Qed.

Lemma changes_request_id s :
  get_id (changes_request (changed_values s)) = SR_GET_CHANGES.
Proof. destruct s; vm_compute; reflexivity. Qed.

Lemma send_sync_not_stopped message blocked e :
  m_state e <> AS_STOPPED -> get_id message <> -1 ->
  send_sync message blocked e =
    let e1 :=
      set_sync_requests
        (<[get_id message := Message_new]> (m_sync_requests e)) e in
    (tt, after (blocked e1), SocketSendSync message :: calls (blocked e1)).
Proof.
  intros Hs Hid. unfold send_sync, store_sync_request. run.
  rewrite !bool_decide_eq_true_2 by assumption. cbn.
  destruct (blocked _) as [[[] e2] out2]. reflexivity.
Qed.

Lemma send_sync_stopped message blocked e :
  m_state e = AS_STOPPED -> send_sync message blocked e = (tt, e, []).
Proof.
  intros Hs. unfold send_sync. run.
  rewrite bool_decide_eq_false_2 by (intros Hn; apply Hn, Hs).
  reflexivity.
Qed.

Lemma parse_notification json root category statuscode blocked e :
  read_json json = Some root ->
  parse_category root = Some category ->
  parse_status_code root = Some statuscode ->
  is_notification_status statuscode = true ->
  after (parse json blocked e)
  = after (send_sync (changes_request (changed_values statuscode))
             blocked e)
  /\ calls (parse json blocked e)
     = calls (send_sync (changes_request (changed_values statuscode))
                blocked e).
Proof.
  intros Hj Hc Hs Hn. unfold parse. rewrite Hj, Hc, Hs.
  destruct statuscode; try discriminate Hn; classify;
    cbn [m_statuscode with_statuscode changed_values];
    rewrite run_bind;
    destruct (send_sync _ blocked e) as [[[] e1] out1]; run;
    rewrite app_nil_r; auto.
Qed.

(** C3, as the code has it.  A message with a parseable category whose
    status code is one of the three notification codes, handled while the
    engine is not Stopped, makes the dispatcher reset the correlator
    entry for the follow-up id and send exactly one synchronous
    tracker/get request whose fields are those of the notification
    (calibresult, iscalibrated, iscalibrating; the five screen fields;
    trackerstate).  Everything else that happens is what the receive
    context delivers while that request blocks; when it delivers nothing,
    the request is the only call and the snapshots are untouched. *)
Theorem notification_follow_up json root category statuscode blocked e :
  read_json json = Some root ->
  parse_category root = Some category ->
  parse_status_code root = Some statuscode ->
  is_notification_status statuscode = true ->
  m_state e <> AS_STOPPED ->
  let request :=
    tracker_get_request SR_GET_CHANGES (relevant_fields statuscode) in
  let e1 :=
    set_sync_requests
      (<[SR_GET_CHANGES := Message_new]> (m_sync_requests e)) e in
  (calls (parse json blocked e)
     = SocketSendSync request :: calls (blocked e1)
   /\ after (parse json blocked e) = after (blocked e1))
  /\ (calls (on_message json (mret tt) e) = [SocketSendSync request]
      /\ snapshots (after (on_message json (mret tt) e)) = snapshots e
      /\ m_calibration_proxy (after (on_message json (mret tt) e))
         = m_calibration_proxy e).
Proof.
  intros Hj Hc Hs Hn Hrun request e1.
  assert (Hsend : forall blocked',
    send_sync (changes_request (changed_values statuscode)) blocked' e
    = (tt, after (blocked' e1),
       SocketSendSync request :: calls (blocked' e1))).
  { intros blocked'. rewrite send_sync_not_stopped.
    - rewrite changes_request_id.
      rewrite changes_request_fields by exact Hn. reflexivity.
    - exact Hrun.
    - rewrite changes_request_id. discriminate. }
  split.
  - destruct (parse_notification json root category statuscode blocked e
                Hj Hc Hs Hn) as [-> ->].
    rewrite Hsend. auto.
  - rewrite on_message_calls, on_message_after.
    destruct (parse_notification json root category statuscode (mret tt) e
                Hj Hc Hs Hn) as [-> ->].
    specialize (Hsend (mret tt)).
    change (send_sync (changes_request (changed_values statuscode))
              (mret tt) e = (tt, e1, [SocketSendSync request])) in Hsend.
    rewrite Hsend.
    split; [reflexivity|].
    destruct (correlate_frame
                (value (parse json (mret tt) e)) e1) as (Hsnap & Hcal & _).
    split; [exact Hsnap | exact Hcal].
Qed.

(** *** Replies to tracker/get *)

Lemma parse_tracker_get_reply json root blocked e :
  tracker_get_reply json root ->
  after (parse json blocked e) = after (parse_tracker_get root e)
  /\ calls (parse json blocked e) = calls (parse_tracker_get root e).
Proof.
  intros (Hj & Hc & Hs & Hr). unfold parse. rewrite Hj, Hc, Hs, Hr.
  classify. rewrite run_bind.
  destruct (parse_tracker_get root e) as [[[] e1] out1]. run.
  rewrite app_nil_r. auto.
Qed.

Lemma parse_tracker_get_run root e server_state screen gaze_data
    calib_result :
  parse_server_state (m_server_proxy e) (m_screen e) root
  = Some (server_state, screen, gaze_data, calib_result) ->
  let r := parse_tracker_get root e in
  calls r = tracker_get_calls e server_state screen gaze_data calib_result
  /\ m_server_proxy (after r) = server_state
  /\ m_screen (after r) = screen
  /\ m_gaze_data (after r) = default (m_gaze_data e) gaze_data
  /\ m_calib_result (after r) = default (m_calib_result e) calib_result
  /\ tracker_state_observers (after r) = tracker_state_observers e
  /\ m_calibration_proxy (after r) = m_calibration_proxy e.
Proof.
  intros Hp. unfold parse_tracker_get, tracker_get_calls, once_each.
  cbn zeta. run. rewrite Hp.
  destruct gaze_data as [g|], calib_result as [c|];
    destruct (decide (screen = m_screen e)) as [Hscr|Hscr];
    destruct (decide (trackerstate server_state
                      = trackerstate (m_server_proxy e))) as [Hts|Hts];
    cbn;
    rewrite ?(bool_decide_eq_false_2 (screen <> m_screen e))
      by (intros Hn; apply Hn, Hscr);
    rewrite ?(bool_decide_eq_true_2 (screen <> m_screen e)) by exact Hscr;
    rewrite ?(bool_decide_eq_false_2
                (trackerstate server_state
                 <> trackerstate (m_server_proxy e)))
      by (intros Hn; apply Hn, Hts);
    rewrite ?(bool_decide_eq_true_2
                (trackerstate server_state
                 <> trackerstate (m_server_proxy e))) by exact Hts;
    cbn; rewrite ?app_nil_r; auto 10.
Qed.

Lemma on_message_tracker_get json root blocked e server_state screen
    gaze_data calib_result :
  tracker_get_reply json root ->
  parse_server_state (m_server_proxy e) (m_screen e) root
  = Some (server_state, screen, gaze_data, calib_result) ->
  let r := on_message json blocked e in
  calls r = tracker_get_calls e server_state screen gaze_data calib_result
  /\ m_server_proxy (after r) = server_state
  /\ m_screen (after r) = screen.
Proof.
  intros Hreply Hp r. subst r.
  rewrite on_message_calls, on_message_after.
  destruct (parse_tracker_get_reply json root blocked e Hreply)
    as [-> ->].
  destruct (parse_tracker_get_run root e _ _ _ _ Hp)
    as (Hcalls & Hserver & Hscreen & _).
  destruct (correlate_frame (value (parse json blocked e))
              (after (parse_tracker_get root e))) as (Hsnap & _).
  unfold snapshots in Hsnap. injection Hsnap as Hs1 _ _ Hs4.
  rewrite Hs1, Hs4. auto.
Qed.

Lemma filter_once_each (f : effect -> bool) observers c b :
  (forall o, f (Notify o c) = b) ->
  List.filter f (once_each observers c)
  = if b then once_each observers c else [].
Proof.
  intros Hf. unfold once_each.
  induction observers as [|o l IH]; cbn.
  - destruct b; reflexivity.
  - rewrite Hf, IH. destruct b; reflexivity.
Qed.

Lemma screen_notifications_once_each observers c :
  List.filter is_screen_notification (once_each observers c)
  = match c with
    | on_screen_state_changed _ => once_each observers c
    | _ => []
    end.
Proof.
  destruct c;
    first [ apply (filter_once_each _ _ _ false); reflexivity
          | apply (filter_once_each _ _ _ true); reflexivity ].
Qed.

Lemma tracker_notifications_once_each observers c :
  List.filter is_tracker_notification (once_each observers c)
  = match c with
    | on_tracker_connection_changed _ => once_each observers c
    | _ => []
    end.
Proof.
  destruct c;
    first [ apply (filter_once_each _ _ _ false); reflexivity
          | apply (filter_once_each _ _ _ true); reflexivity ].
Qed.

Lemma screen_notifications_of_tracker_get e server_state screen gaze_data
    calib_result :
  List.filter is_screen_notification
    (tracker_get_calls e server_state screen gaze_data calib_result)
  = if decide (screen = m_screen e) then []
    else once_each (tracker_state_observers e)
           (on_screen_state_changed screen).
Proof.
  unfold tracker_get_calls. rewrite !List.filter_app.
  destruct gaze_data, calib_result;
    destruct (decide (screen = m_screen e));
    destruct (decide (trackerstate server_state
                      = trackerstate (m_server_proxy e)));
    rewrite ?screen_notifications_once_each;
    cbn; rewrite ?app_nil_r; reflexivity.
Qed.

Lemma tracker_notifications_of_tracker_get e server_state screen gaze_data
    calib_result :
  List.filter is_tracker_notification
    (tracker_get_calls e server_state screen gaze_data calib_result)
  = if decide (trackerstate server_state
               = trackerstate (m_server_proxy e)) then []
    else once_each (tracker_state_observers e)
           (on_tracker_connection_changed (trackerstate server_state)).
Proof.
  unfold tracker_get_calls. rewrite !List.filter_app.
  destruct gaze_data, calib_result;
    destruct (decide (screen = m_screen e));
    destruct (decide (trackerstate server_state
                      = trackerstate (m_server_proxy e)));
    rewrite ?tracker_notifications_once_each;
    cbn; rewrite ?app_nil_r; reflexivity.
Qed.

(** C4. A tracker/get reply whose parsed screen differs from the screen
    snapshot makes the dispatcher store the new screen and call
    [on_screen_state_changed] with it once on each tracker-state listener,
    and no other screen notification; a tracker/get reply handled after it
    whose parsed screen is the same one leaves the snapshot as it is and
    makes no screen notification. *)
Theorem screen_change_notified_once json root blocked e server_state
    screen gaze_data calib_result :
  tracker_get_reply json root ->
  parse_server_state (m_server_proxy e) (m_screen e) root
  = Some (server_state, screen, gaze_data, calib_result) ->
  screen <> m_screen e ->
  let r := on_message json blocked e in
  m_screen (after r) = screen
  /\ List.filter is_screen_notification (calls r)
     = once_each (tracker_state_observers e)
         (on_screen_state_changed screen)
  /\ forall json' root' blocked' server_state' gaze_data' calib_result',
       tracker_get_reply json' root' ->
       parse_server_state (m_server_proxy (after r)) (m_screen (after r))
         root'
       = Some (server_state', screen, gaze_data', calib_result') ->
       let r' := on_message json' blocked' (after r) in
       m_screen (after r') = m_screen (after r)
       /\ List.filter is_screen_notification (calls r') = [].
Proof.
  intros Hreply Hp Hne r.
  destruct (on_message_tracker_get json root blocked e _ _ _ _ Hreply Hp)
    as (Hcalls & _ & Hscreen).
  fold r in Hcalls, Hscreen.
  split; [exact Hscreen|]. split.
  - rewrite Hcalls, screen_notifications_of_tracker_get.
    destruct (decide (screen = m_screen e)); [contradiction|reflexivity].
  - intros json' root' blocked' server_state' gaze_data' calib_result'
      Hreply' Hp' r'.
    destruct (on_message_tracker_get json' root' blocked' (after r)
                _ _ _ _ Hreply' Hp') as (Hcalls' & _ & Hscreen').
    fold r' in Hcalls', Hscreen'.
    split; [congruence|].
    rewrite Hcalls', screen_notifications_of_tracker_get.
    destruct (decide (screen = m_screen (after r)));
      [reflexivity|congruence].
Qed.

Lemma ITracker_observe_filter o calls tracker_state :
  ITracker_observe o (List.filter is_tracker_notification calls)
    tracker_state
  = ITracker_observe o calls tracker_state.
Proof.
  revert tracker_state.
  induction calls as [|x calls IH]; intros tracker_state; [reflexivity|].
  destruct x as [| | | |o' []]; cbn; try apply IH.
  destruct (decide (o' = o)); rewrite IH; reflexivity.
Qed.

Lemma ITracker_observe_absent o observers tracker_state' tracker_state :
  ~ In o observers ->
  ITracker_observe o
    (once_each observers (on_tracker_connection_changed tracker_state'))
    tracker_state
  = ([], tracker_state).
Proof.
  induction observers as [|o' l IH]; intros Hnot; [reflexivity|].
  cbn. destruct (decide (o' = o)) as [->|_].
  - exfalso. apply Hnot. left. reflexivity.
  - apply IH. intros Hin. apply Hnot. right. exact Hin.
Qed.

Lemma ITracker_observe_once o observers tracker_state' tracker_state :
  List.NoDup observers -> In o observers ->
  ITracker_observe o
    (once_each observers (on_tracker_connection_changed tracker_state'))
    tracker_state
  = ([(tracker_state, tracker_state')], tracker_state').
Proof.
  induction 1 as [|o' l Hfresh _ IH]; intros Hin; [destruct Hin|].
  cbn. destruct (decide (o' = o)) as [->|Hne].
  - fold (once_each l (on_tracker_connection_changed tracker_state')).
    rewrite ITracker_observe_absent by exact Hfresh. reflexivity.
  - destruct Hin as [Heq|Hin]; [contradiction|]. apply IH, Hin.
Qed.

(** C5, as the code has it.  A tracker/get reply whose parsed tracker
    state differs from the one in the server-state snapshot makes the
    dispatcher call [on_tracker_connection_changed] once on each
    tracker-state listener and no other tracker-state notification.  The
    call carries the new state only: the prior state is never passed, and
    the snapshot holds the new state afterwards.  What a listener takes
    for the old side of the transition is what it kept itself: a
    registered listener that keeps the state it was last told sees one
    transition, from whatever it held to the new state. *)
Theorem tracker_state_change_notified_once json root blocked e
    server_state screen gaze_data calib_result :
  tracker_get_reply json root ->
  parse_server_state (m_server_proxy e) (m_screen e) root
  = Some (server_state, screen, gaze_data, calib_result) ->
  trackerstate server_state <> trackerstate (m_server_proxy e) ->
  let prior := trackerstate (m_server_proxy e) in
  let r := on_message json blocked e in
  List.filter is_tracker_notification (calls r)
  = once_each (tracker_state_observers e)
      (on_tracker_connection_changed (trackerstate server_state))
  /\ trackerstate (m_server_proxy (after r)) = trackerstate server_state
  /\ (forall o,
        ~ In (Notify o (on_tracker_connection_changed prior)) (calls r))
  /\ (forall o held,
        List.NoDup (tracker_state_observers e) ->
        In o (tracker_state_observers e) ->
        ITracker_observe o (calls r) held
        = ([(held, trackerstate server_state)], trackerstate server_state)).
Proof.
  intros Hreply Hp Hne prior r.
  destruct (on_message_tracker_get json root blocked e _ _ _ _ Hreply Hp)
    as (Hcalls & Hserver & _).
  fold r in Hcalls, Hserver.
  assert (Hfilter :
    List.filter is_tracker_notification (calls r)
    = once_each (tracker_state_observers e)
        (on_tracker_connection_changed (trackerstate server_state))).
  { rewrite Hcalls, tracker_notifications_of_tracker_get.
    destruct (decide (trackerstate server_state
                      = trackerstate (m_server_proxy e)));
      [contradiction|reflexivity]. }
  split; [exact Hfilter|]. split; [|split].
  - rewrite Hserver. reflexivity.
  - intros o Hin.
    assert (Hin' : In (Notify o (on_tracker_connection_changed prior))
                     (List.filter is_tracker_notification (calls r)))
      by (apply List.filter_In; split; [exact Hin|reflexivity]).
    rewrite Hfilter in Hin'. unfold once_each in Hin'.
    apply List.in_map_iff in Hin' as (o' & Heq & _).
    injection Heq as _ Heq. apply Hne. exact Heq.
  - intros o held Hdistinct Hin.
    rewrite <- ITracker_observe_filter, Hfilter.
    apply ITracker_observe_once; assumption.
Qed.

(** *** Replies to calibration/pointend *)

Lemma parse_point_end_reply json root blocked e :
  point_end_reply json root ->
  after (parse json blocked e) = after (parse_calibration_point_end root e)
  /\ calls (parse json blocked e)
     = calls (parse_calibration_point_end root e).
Proof.
  intros (Hj & Hc & Hs & Hr). unfold parse. rewrite Hj, Hc, Hs, Hr.
  classify. unfold parse_calibration. classify.
  run.
  destruct (parse_calibration_point_end root e) as [[[] e1] out1];
    cbn; rewrite ?app_nil_r; auto.
Qed.

Lemma parse_calibration_point_end_run root e :
  let r := parse_calibration_point_end root e in
  calls r = point_end_calls e (parse_calib_result root)
  /\ m_calibration_proxy (after r)
     = match parse_calib_result root with
       | Some (Some calib_result) =>
           if result calib_result then CalibrationProxy.new
           else CalibrationProxy.point_end (m_calibration_proxy e)
       | _ => CalibrationProxy.point_end (m_calibration_proxy e)
       end
  /\ m_calib_result (after r)
     = match parse_calib_result root with
       | Some (Some calib_result) =>
           if result calib_result then calib_result else m_calib_result e
       | _ => m_calib_result e
       end.
Proof.
  unfold parse_calibration_point_end, point_end_calls, once_each.
  cbn zeta. run.
  destruct (parse_calib_result root) as [[c|]|]; run;
    [destruct (result c) eqn:Hres; run|..];
    cbn; rewrite ?app_nil_r, ?Hres; auto.
Qed.

Lemma on_message_point_end json root blocked e :
  point_end_reply json root ->
  let r := on_message json blocked e in
  calls r = point_end_calls e (parse_calib_result root)
  /\ m_calibration_proxy (after r)
     = m_calibration_proxy (after (parse_calibration_point_end root e))
  /\ m_calib_result (after r)
     = m_calib_result (after (parse_calibration_point_end root e)).
Proof.
  intros Hreply r. subst r.
  rewrite on_message_calls, on_message_after.
  destruct (parse_point_end_reply json root blocked e Hreply) as [-> ->].
  destruct (parse_calibration_point_end_run root e) as (Hcalls & _).
  destruct (correlate_frame (value (parse json blocked e))
              (after (parse_calibration_point_end root e)))
    as (Hsnap & Hcal & _).
  unfold snapshots in Hsnap. injection Hsnap as _ _ Hs3 _.
  auto.
Qed.

(** C8. A calibration/pointend reply that carries a final result whose
    success flag is false: the calibration-result snapshot stays as it
    is, no [on_calibration_changed] call is made, the progress tracker is
    advanced by the point and not cleared, and the calls are exactly the
    progress call followed by one [on_calibration_result] call with the
    failed result, each made once on every calibration-process
    listener. *)
Theorem failed_result_reported_only json root blocked e calib_result :
  point_end_reply json root ->
  parse_calib_result root = Some (Some calib_result) ->
  result calib_result = false ->
  let r := on_message json blocked e in
  let advanced := CalibrationProxy.point_end (m_calibration_proxy e) in
  m_calib_result (after r) = m_calib_result e
  /\ List.filter is_calibration_changed (calls r) = []
  /\ m_calibration_proxy (after r) = advanced
  /\ calls r
     = once_each (calib_process_observers e)
         (on_calibration_progress (CalibrationProxy.get_progress advanced))
       ++ once_each (calib_process_observers e)
            (on_calibration_result false calib_result).
Proof.
  intros Hreply Hparsed Hfailed. cbn zeta.
  destruct (on_message_point_end json root blocked e Hreply)
    as (Hcalls & Hproxy & Hres).
  destruct (parse_calibration_point_end_run root e)
    as (_ & Hproxy' & Hres').
  cbn zeta in Hcalls, Hproxy, Hres, Hproxy', Hres'.
  rewrite Hparsed, Hfailed in Hproxy', Hres'.
  unfold point_end_calls in Hcalls.
  rewrite Hparsed, Hfailed in Hcalls. cbn [app] in Hcalls.
  split; [congruence|]. split; [|split; [congruence|exact Hcalls]].
  rewrite Hcalls, List.filter_app.
  rewrite !(filter_once_each is_calibration_changed _ _ false)
    by reflexivity.
  reflexivity.
Qed.

End Dispatcher.

(** ** Calibration progress *)

Section Progress.

Import CalibrationProxy.

Lemma get_progress_finite (p : t) : get_progress p <> DivByZero.
Proof.
  unfold get_progress, double_div.
  destruct (0 =? m_point_count p) eqn:Hz; [discriminate|].
  rewrite Z.eqb_sym in Hz. rewrite Hz. discriminate.
Qed.

(** C6. Whenever the total point count of the progress tracker is 0,
    [get_progress()] is exactly 0, and it is not the outcome of a
    division by zero. *)
Theorem get_progress_without_points (p : t) :
  m_point_count p = 0 ->
  get_progress p = Finite 0 /\ get_progress p <> DivByZero.
Proof.
  intros Hz. split; [|apply get_progress_finite].
  unfold get_progress. rewrite Hz. reflexivity.
Qed.

(** A run started with no points stays at progress 0 however many
    point-end events follow. *)
Lemma progress_of_empty_run (k : nat) (p : t) :
  get_progress (Nat.iter k point_end (start_calibration (to_size_t 0) p))
  = Finite 0.
Proof.
  assert (Hz : m_point_count
                 (Nat.iter k point_end (start_calibration (to_size_t 0) p))
               = 0).
  { induction k as [|k IH]; [reflexivity|].
    rewrite Nat.iter_succ. exact IH. }
  unfold get_progress. rewrite Hz. reflexivity.
Qed.

Lemma processed_of_iter (k : nat) (p : t) :
  0 <= m_processed_points p ->
  m_processed_points p + Z.of_nat k < size_max ->
  m_processed_points (Nat.iter k point_end p)
  = m_processed_points p + Z.of_nat k
  /\ m_point_count (Nat.iter k point_end p) = m_point_count p.
Proof.
  intros Hlo. induction k as [|k IH]; intros Hhi.
  - cbn. split; [lia|reflexivity].
  - destruct IH as [IHp IHc]; [lia|].
    rewrite Nat.iter_succ.
    set (p' := Nat.iter k point_end p) in *.
    cbn [point_end m_processed_points m_point_count].
    rewrite IHp, IHc. split; [|reflexivity].
    unfold to_size_t. rewrite Z.mod_small; lia.
Qed.


(** The quotient is rounded as the hardware rounds it: 1/3, and an
    operand that no double holds. *)
Example double_div_one_third :
  double_div 1 3 = Finite (6004799503160661 # 18014398509481984).
Proof. vm_compute. reflexivity. Qed.

Example double_div_rounds_operand :
  double_div (2 ^ 53 + 1) 1 = Finite 9007199254740992
  /\ double_div 3 2 = Finite (3 # 2)
  /\ double_div 0 7 = Finite 0.
Proof. vm_compute. auto. Qed.

End Progress.

(** ** Connecting *)

Section Connecting.

Context `{Parser}.

Lemma no_state_query_ret {A} (a : A) : no_state_query (mret a : M A).
Proof. intros e []. Qed.

Lemma no_state_query_bind {A B} (m : M A) (f : A -> M B) :
  no_state_query m -> (forall a, no_state_query (f a)) ->
  no_state_query (m ≫= f).
Proof.
  intros Hm Hf e. rewrite run_bind.
  specialize (Hm e). destruct (m e) as [[a e1] out1].
  specialize (Hf a e1). destruct (f a e1) as [[b e2] out2].
  cbn in *. rewrite in_app_iff. tauto.
Qed.

Lemma no_state_query_get : no_state_query get.
Proof. intros e []. Qed.

Lemma no_state_query_modify f : no_state_query (modify f).
Proof. intros e []. Qed.

Lemma no_state_query_notify observers c :
  no_state_query (notify observers c).
Proof.
  intros e. unfold notify, calls. cbn. rewrite in_map_iff.
  intros (o & Ho & _). discriminate Ho.
Qed.

Lemma no_state_query_emit x :
  x <> SocketSendSync tracker_state_request -> no_state_query (emit x).
Proof. intros Hx e [Heq|[]]. apply Hx, Heq. Qed.

Ltac no_query :=
  repeat first
    [ assumption
    | apply no_state_query_ret
    | apply no_state_query_get
    | apply no_state_query_modify
    | apply no_state_query_notify
    | apply no_state_query_emit; discriminate
    | apply no_state_query_bind; [|intros ?]
    | match goal with
      | |- no_state_query (if ?b then _ else _) => destruct b
      | |- no_state_query (match ?x with _ => _ end) => destruct x
      end ].

Lemma no_state_query_send_sync message blocked :
  message <> tracker_state_request -> no_state_query blocked ->
  no_state_query (send_sync message blocked).
Proof.
  intros Hm Hb. unfold send_sync, store_sync_request. no_query.
  apply no_state_query_emit. congruence.
Qed.

Lemma changes_request_not_state_query s :
  changes_request (changed_values s) <> tracker_state_request.
Proof.
  intros Heq. apply (f_equal get_id) in Heq.
  rewrite changes_request_id in Heq. vm_compute in Heq. discriminate Heq.
Qed.

Lemma no_state_query_disconnect : no_state_query disconnect.
Proof. unfold disconnect. no_query. Qed.

Lemma no_state_query_parse json blocked :
  no_state_query blocked -> no_state_query (parse json blocked).
Proof.
  intros Hb. unfold parse, parse_tracker_get, parse_calibration,
    parse_calibration_point_end.
  repeat first
    [ apply no_state_query_send_sync;
        [apply changes_request_not_state_query|exact Hb]
    | progress no_query
    | apply no_state_query_bind; [|intros ?] ].
Qed.

Lemma no_state_query_on_message json blocked :
  no_state_query blocked -> no_state_query (on_message json blocked).
Proof.
  intros Hb. unfold on_message, store_sync_request.
  apply no_state_query_bind; [apply no_state_query_parse, Hb|].
  intros r. no_query.
Qed.

Lemma receive_message message during :
  receive (EvMessage message during)
  = on_message message (receive_all during).
Proof. reflexivity. Qed.

Lemma no_state_query_receive_all l :
  Forall (fun ev => no_state_query (receive ev)) l ->
  no_state_query (receive_all l).
Proof.
  induction 1 as [|ev l Hev _ IH]; cbn [receive_all]; no_query.
Qed.

Lemma no_state_query_receive ev : no_state_query (receive ev).
Proof.
  induction ev as [message during IH|] using event_nested_ind.
  - rewrite receive_message.
    apply no_state_query_on_message, no_state_query_receive_all, IH.
  - unfold receive, on_disconnected.
    apply no_state_query_bind; [apply no_state_query_disconnect|].
    intros ?. no_query.
Qed.

Lemma no_state_query_events l : no_state_query (receive_all l).
Proof.
  apply no_state_query_receive_all, Forall_forall.
  intros ev _. apply no_state_query_receive.
Qed.

Lemma no_state_query_poll_version wait sleeps :
  no_state_query (poll_version wait sleeps).
Proof.
  revert sleeps. induction wait as [|wait IH]; intros sleeps;
    cbn [poll_version]; [no_query|].
  apply no_state_query_bind; [no_query|]. intros e.
  destruct (version (m_server_proxy e) =? 0); [|no_query].
  apply no_state_query_bind; [apply no_state_query_events|].
  intros ?. apply IH.
Qed.

Lemma no_state_query_get_default_version sleeps :
  no_state_query (get_default_version sleeps).
Proof.
  unfold get_default_version, send_async.
  pose proof (no_state_query_poll_version 5000 sleeps).
  no_query.
Qed.

(** [connect] when the socket connects and the version that
    [get_default_version] returns is below [VERSION]. *)
Lemma connect_old_server_run host port c e reported e1 out1 :
  m_state e = AS_STOPPED ->
  socket_connects c = true ->
  get_default_version (while_polling c)
    (connect_opened (connect_prepare host port e))
  = (reported, e1, out1) ->
  reported < VERSION ->
  connect host port c e
  = (false, after (disconnect e1),
     SocketConnect host port :: out1 ++ calls (disconnect e1)).
Proof.
  intros Hs Hc Hpolled Hv. unfold connect.
  rewrite run_bind. cbn [get].
  rewrite bool_decide_eq_false_2
    by (intros Hn; apply Hn; symmetry; exact Hs).
  rewrite Hc.
  rewrite run_bind. cbn [modify].
  rewrite run_bind. cbn [emit].
  rewrite run_bind. cbn [modify].
  rewrite run_bind. rewrite Hpolled.
  apply Z.ltb_lt in Hv. rewrite Hv.
  rewrite run_bind.
  destruct (disconnect e1) as [[[] e2] out2].
  rewrite run_ret. cbn [app after calls fst snd].
  rewrite app_nil_r. reflexivity.
Qed.

(** C2. When the socket connects but the version obtained from the
    server by [get_default_version] is older than [VERSION], [connect]
    returns false, the engine ends Stopped, and the baseline request of
    the full tracker state is not among the calls made. *)
Theorem connect_old_server host port c e :
  m_state e = AS_STOPPED ->
  socket_connects c = true ->
  value (get_default_version (while_polling c)
           (connect_opened (connect_prepare host port e))) < VERSION ->
  let r := connect host port c e in
  value r = false
  /\ m_state (after r) = AS_STOPPED
  /\ ~ In (SocketSendSync tracker_state_request) (calls r).
Proof.
  intros Hs Hc Hv r. subst r.
  pose proof (no_state_query_get_default_version (while_polling c)
                (connect_opened (connect_prepare host port e))) as Hquiet.
  destruct (get_default_version (while_polling c)
              (connect_opened (connect_prepare host port e)))
    as [[reported e1] out1] eqn:Hpolled.
  rewrite (connect_old_server_run host port c e reported e1 out1
             Hs Hc Hpolled Hv).
  split; [reflexivity|]. split.
  - apply disconnect_stops.
  - intros [Hin|Hin]; [discriminate Hin|].
    apply in_app_iff in Hin as [Hin|Hin].
    + exact (Hquiet Hin).
    + exact (no_state_query_disconnect _ Hin).
Qed.

Lemma poll_version_silent wait e :
  version (m_server_proxy e) = 0 -> poll_version wait [] e = (tt, e, []).
Proof.
  revert e. induction wait as [|wait IH]; intros e Hz; [reflexivity|].
  cbn [poll_version]. rewrite run_bind. cbn [get].
  rewrite Hz. cbn [Z.eqb]. rewrite run_bind. cbn [hd tl receive_all].
  rewrite run_ret, IH by exact Hz. reflexivity.
Qed.

(** A server that never answers the version request is taken for an old
    one. *)
Lemma version_of_silent_server e :
  value (get_default_version [] e) = 0.
Proof.
  unfold get_default_version.
  repeat (rewrite run_bind; cbn [get modify]).
  destruct (send_async version_request _) as [[[] e1] out1] eqn:Hsend.
  assert (He1 : version (m_server_proxy e1) = 0).
  { revert Hsend. unfold send_async. rewrite run_bind. cbn [get].
    destruct (bool_decide _); cbn; intros [= <- _]; reflexivity. }
  repeat (rewrite run_bind; cbn [get modify]).
  rewrite poll_version_silent by exact He1.
  repeat (rewrite run_bind; cbn [get modify]).
  rewrite run_ret. unfold value. cbn [fst]. exact He1.
Qed.

End Connecting.

(** ** Public operations while Stopped *)

Section Stopped.

Context `{Parser}.

Lemma send_async_stopped message e :
  m_state e = AS_STOPPED -> send_async message e = (tt, e, []).
Proof.
  intros Hs. unfold send_async. rewrite run_bind. cbn [get].
  rewrite bool_decide_eq_false_2 by (intros Hn; apply Hn, Hs).
  reflexivity.
Qed.

(** The fire-and-forget operations send nothing and change nothing while
    the engine is Stopped. *)
Lemma fire_and_forget_stopped e :
  m_state e = AS_STOPPED ->
  calibration_clear e = (tt, e, [])
  /\ calibration_abort e = (tt, e, [])
  /\ calibration_point_end e = (tt, e, []).
Proof.
  intros Hs. unfold calibration_clear, calibration_abort,
    calibration_point_end.
  rewrite !send_async_stopped by exact Hs. auto.
Qed.

(** What a synchronous operation answers once [send_sync] has declined to
    send: the status of whatever reply the correlator still holds under
    the operation's id. *)
Lemma sync_request_status id e :
  calls (sync_request id e) = []
  /\ is_statuscode (value (sync_request id e)) GASC_OK
     = match m_sync_requests e !! id with
       | Some msg => is_statuscode msg GASC_OK
       | None => false
       end.
Proof.
  unfold sync_request, store_sync_request. rewrite run_bind. cbn [get].
  destruct (m_sync_requests e !! id); auto.
Qed.

Lemma sync_answer_stopped message during id e :
  m_state e = AS_STOPPED ->
  let r :=
    (send_sync message (receive_all during);;
     msg ← sync_request id; mret (is_statuscode msg GASC_OK)) e in
  calls r = []
  /\ value r
     = match m_sync_requests e !! id with
       | Some msg => is_statuscode msg GASC_OK
       | None => false
       end.
Proof.
  intros Hs r. subst r.
  destruct (sync_request_status id e) as [Hcalls Hvalue].
  rewrite run_bind, send_sync_stopped by exact Hs.
  rewrite run_bind.
  destruct (sync_request id e) as [[msg e1] out1].
  rewrite run_ret. cbn in *. subst out1. auto.
Qed.

(** The synchronous operations send nothing while the engine is Stopped,
    and answer from the correlator: false when it holds no reply under
    the operation's id, or one whose status is not OK. *)
Lemma synchronous_stopped e :
  m_state e = AS_STOPPED ->
  let answer id :=
    match m_sync_requests e !! id with
    | Some msg => is_statuscode msg GASC_OK
    | None => false
    end in
  (forall screen during,
     calls (set_screen screen during e) = []
     /\ value (set_screen screen during e) = answer SR_SET_SCREEN)
  /\ (forall version during,
        calls (set_version version during e) = []
        /\ value (set_version version during e) = answer SR_SET_VERSION)
  /\ (forall x y during,
        calls (calibration_point_start x y during e) = []
        /\ value (calibration_point_start x y during e)
           = answer SR_CALIB_POINT_START)
  /\ (forall point_count during,
        calls (calibration_start point_count during e) = []
        /\ value (calibration_start point_count during e)
           = answer SR_CALIB_START).
Proof.
  intros Hs answer. repeat split;
    try apply (sync_answer_stopped _ _ _ e Hs).
  - unfold calibration_start. rewrite run_bind. cbn [modify].
    match goal with
    | |- context [set_calibration_proxy ?p e] =>
        pose proof (sync_answer_stopped
          (calibration_start_request point_count) during SR_CALIB_START
          (set_calibration_proxy p e) Hs) as [Hc _]
    end.
    cbn zeta in Hc.
    destruct ((send_sync _ _ ;; _) _) as [[b e1] out1].
    cbn in *. exact Hc.
  - unfold calibration_start. rewrite run_bind. cbn [modify].
    match goal with
    | |- context [set_calibration_proxy ?p e] =>
        pose proof (sync_answer_stopped
          (calibration_start_request point_count) during SR_CALIB_START
          (set_calibration_proxy p e) Hs) as [_ Hv]
    end.
    cbn zeta in Hv.
    destruct ((send_sync _ _ ;; _) _) as [[b e1] out1].
    cbn in *. exact Hv.
Qed.

End Stopped.

(** ** Examples *)

Section Examples.

Existing Instance sample_parser.

(** C1: a run that does not start from an idle tracker.  A first run of
    two points ends with a failed result, which leaves the tracker as it
    is; [calibration_start] then records the new total and keeps the two
    processed points, and the first point-end event of the second run of
    two points publishes 3/2, where 1/2 is due. *)
Theorem progress_after_failed_run :
  let first_run :=
    calibration_start 2 [EvMessage "start ok" []];;
    on_message "pointend" (mret tt);;
    on_message "pointend failed" (mret tt) in
  let second_run :=
    calibration_start 2 [EvMessage "start ok" []];;
    on_message "pointend" (mret tt) in
  let e := after (first_run sample_running) in
  m_calibration_proxy e
  = {| CalibrationProxy.m_point_count := 2;
       CalibrationProxy.m_processed_points := 2;
       CalibrationProxy.m_is_calibrating := true |}
  /\ value (second_run e) = tt
  /\ List.filter is_progress_notification (calls (second_run e))
     = [Notify 4%nat (on_calibration_progress (Finite (3 # 2)))].
Proof. vm_compute. auto. Qed.

Lemma connect_old_server_witness :
  m_state sample_engine = AS_STOPPED
  /\ socket_connects old_server = true
  /\ value (connect "127.0.0.1" "6555" old_server sample_engine) = false
  /\ m_state (after (connect "127.0.0.1" "6555" old_server sample_engine))
     = AS_STOPPED.
Proof.
  split; [reflexivity|]. split; [reflexivity|].
  assert (Hv : value (get_default_version (while_polling old_server)
                        (connect_opened
                           (connect_prepare "127.0.0.1" "6555"
                              sample_engine))) < VERSION)
    by (vm_compute; reflexivity).
  destruct (connect_old_server (H:=sample_parser) "127.0.0.1" "6555"
              old_server sample_engine
              eq_refl eq_refl Hv) as (Hr & Hs & _).
  split; [exact Hr|exact Hs].
Defined.

(** C3 fails while the engine is Stopped: [send_sync] declines to send,
    and the notification is followed by no request at all. *)
Lemma notification_while_stopped :
  read_json "tracker changed"
  = Some (notification GASC_TRACKER_STATE_CHANGE)
  /\ parse_status_code (notification GASC_TRACKER_STATE_CHANGE)
     = Some GASC_TRACKER_STATE_CHANGE
  /\ m_state sample_engine = AS_STOPPED
  /\ calls (on_message "tracker changed" (mret tt) sample_engine) = [].
Proof. vm_compute. auto. Qed.

Lemma notification_follow_up_witness :
  m_state sample_running <> AS_STOPPED
  /\ calls (on_message "display changed" (mret tt) sample_running)
     = [SocketSendSync
          (tracker_get_request SR_GET_CHANGES
             ["screenindex"; "screenresw"; "screenresh"; "screenpsyw";
              "screenpsyh"])].
Proof.
  assert (Hrun : m_state sample_running <> AS_STOPPED) by discriminate.
  split; [exact Hrun|].
  destruct (notification_follow_up (H:=sample_parser) "display changed"
              (notification GASC_DISPLAY_CHANGE) GAC_TRACKER
              GASC_DISPLAY_CHANGE (mret tt) sample_running
              eq_refl eq_refl eq_refl eq_refl Hrun) as (_ & Hcalls & _).
  exact Hcalls.
Defined.

Lemma screen_change_notified_once_witness :
  wide_screen <> m_screen sample_running
  /\ m_screen (after (on_message "screen" (mret tt) sample_running))
     = wide_screen
  /\ List.filter is_screen_notification
       (calls (on_message "screen" (mret tt) sample_running))
     = [Notify 3%nat (on_screen_state_changed wide_screen)].
Proof.
  assert (Hne : wide_screen <> m_screen sample_running) by discriminate.
  split; [exact Hne|].
  destruct (screen_change_notified_once (H:=sample_parser) "screen"
              (carrying_screen wide_screen
                 (reply (Some SR_GET_CHANGES) GAC_TRACKER GAR_GET))
              (mret tt) sample_running
              ServerState_zero wide_screen None None
              (conj eq_refl (conj eq_refl (conj eq_refl eq_refl)))
              eq_refl Hne) as (Hscreen & Hcalls & _).
  split; [exact Hscreen|exact Hcalls].
Defined.

Lemma tracker_state_change_notified_once_witness :
  1 <> trackerstate (m_server_proxy sample_running)
  /\ List.filter is_tracker_notification
       (calls (on_message "trackerstate 1" (mret tt) sample_running))
     = [Notify 3%nat (on_tracker_connection_changed 1)].
Proof.
  assert (Hne : 1 <> trackerstate (m_server_proxy sample_running))
    by discriminate.
  split; [exact Hne|].
  destruct (tracker_state_change_notified_once (H:=sample_parser)
              "trackerstate 1"
              (carrying_trackerstate 1
                 (reply (Some SR_GET_CHANGES) GAC_TRACKER GAR_GET))
              (mret tt) sample_running
              (set_trackerstate_field 1 ServerState_zero) Screen_zero
              None None
              (conj eq_refl (conj eq_refl (conj eq_refl eq_refl)))
              eq_refl Hne) as (Hcalls & _).
  exact Hcalls.
Defined.

(** C5 fails as it is worded: the notification does not carry the prior
    state.  A change from state 0 to state 1 and a change from state 2 to
    state 1 make the same call, with 1 alone; and a listener that held 4
    takes the change for one from 4 to 1. *)
Lemma tracker_transition_not_carried :
  let from_two :=
    set_server_proxy (set_trackerstate_field 2 ServerState_zero)
      sample_running in
  trackerstate (m_server_proxy sample_running) = 0
  /\ trackerstate (m_server_proxy from_two) = 2
  /\ calls (on_message "trackerstate 1" (mret tt) sample_running)
     = [Notify 3%nat (on_tracker_connection_changed 1)]
  /\ calls (on_message "trackerstate 1" (mret tt) from_two)
     = [Notify 3%nat (on_tracker_connection_changed 1)]
  /\ ITracker_observe 3%nat
       (calls (on_message "trackerstate 1" (mret tt) sample_running)) 4
     = ([(4, 1)], 1).
Proof. vm_compute. auto 10. Qed.

Lemma get_progress_without_points_witness :
  CalibrationProxy.m_point_count
    (CalibrationProxy.start_calibration 0 CalibrationProxy.new) = 0
  /\ CalibrationProxy.get_progress
       (CalibrationProxy.start_calibration 0 CalibrationProxy.new)
     = Finite 0.
Proof.
  split; [reflexivity|].
  apply (get_progress_without_points
           (CalibrationProxy.start_calibration 0 CalibrationProxy.new)).
  reflexivity.
Defined.

Lemma discarded_silently_witness :
  discarded "no category"
  /\ calls (on_message "no category" (mret tt) sample_running) = []
  /\ snapshots (after (on_message "no category" (mret tt) sample_running))
     = snapshots sample_running.
Proof.
  assert (Hd : discarded "no category")
    by (apply (no_category (H:=sample_parser) "no category"
                 (without_category (reply None GAC_TRACKER GAR_GET)));
        reflexivity).
  split; [exact Hd|].
  destruct (discarded_silently (H:=sample_parser) "no category" (mret tt) sample_running Hd)
    as (Hcalls & Hsnap & _).
  split; [exact Hcalls|exact Hsnap].
Defined.

Lemma failed_result_reported_only_witness :
  result failed_result = false
  /\ m_calib_result
       (after (on_message "pointend failed" (mret tt) sample_running))
     = m_calib_result sample_running
  /\ List.filter is_calibration_changed
       (calls (on_message "pointend failed" (mret tt) sample_running))
     = [].
Proof.
  split; [reflexivity|].
  destruct (failed_result_reported_only (H:=sample_parser) "pointend failed"
              (carrying_calibresult failed_result
                 (reply None GAC_CALIBRATION GAR_POINTEND))
              (mret tt) sample_running failed_result
              (conj eq_refl (conj eq_refl (conj eq_refl eq_refl)))
              eq_refl eq_refl) as (Hres & Hnone & _).
  split; [exact Hres|exact Hnone].
Defined.

(** C10: a synchronous operation that finds a stale reply.  After a
    session in which [set_screen] was acknowledged, the correlator still
    holds that reply; [set_screen] called after [disconnect] sends
    nothing, and returns true. *)
Theorem set_screen_after_disconnect :
  let session :=
    connect "127.0.0.1" "6555" current_server;;
    set_screen wide_screen [EvMessage "set_screen ok" []];;
    disconnect in
  let e := after (session sample_engine) in
  m_state e = AS_STOPPED
  /\ set_screen wide_screen [] e = (true, e, []).
Proof. vm_compute. auto. Qed.

End Examples.

(** ** More on the dispatcher *)

Section MoreDispatcher.

Context `{Parser}.

Ltac sort_reply :=
  repeat first
    [ rewrite is_statuscode_with_statuscode
    | rewrite is_notification_with_statuscode
    | rewrite is_category_with_request
    | rewrite is_request_with_request
    | rewrite bool_decide_eq_true_2 by reflexivity
    | rewrite bool_decide_eq_false_2 by discriminate
    | rewrite bool_decide_eq_false_2 by assumption
    | progress cbn [is_notification_status andb negb orb] ].

Lemma correlate_registries r e :
  registries (correlate r e) = registries e
  /\ m_host (correlate r e) = m_host e
  /\ m_port (correlate r e) = m_port e.
Proof.
  unfold correlate. destruct r as [msg|]; [destruct (has_id msg)|]; auto.
Qed.

(** The whole engine after a message, up to the correlator. *)
Lemma on_message_after_parse json blocked e e' :
  after (parse json blocked e) = e' ->
  exists requests,
    after (on_message json blocked e) = set_sync_requests requests e'.
Proof.
  intros <-. rewrite on_message_after. unfold correlate.
  destruct (value (parse json blocked e)) as [msg|];
    [destruct (has_id msg)|]; eauto;
    exists (m_sync_requests (after (parse json blocked e)));
    destruct (after (parse json blocked e)); reflexivity.
Qed.

Lemma parse_plain_acknowledgement json root blocked e :
  plain_acknowledgement json root ->
  after (parse json blocked e) = e /\ calls (parse json blocked e) = [].
Proof.
  intros (Hj & Hs & category & request & Hc & Hr & Hkind).
  unfold parse. rewrite Hj, Hc, Hs, Hr.
  destruct category; sort_reply.
  - auto.
  - destruct request; try contradiction; sort_reply; auto.
  - unfold parse_calibration.
    destruct Hkind as [-> | [-> | [-> | ->]]]; sort_reply; auto.
Qed.

(** X5. A well-formed reply for which the dispatcher has no branch (the
    acknowledgement of a tracker/set, of a calibration/pointstart, a reply
    of unknown category, ...) makes no call and changes nothing but the
    correlator. *)
Theorem plain_acknowledgement_only_correlates json root blocked e :
  plain_acknowledgement json root ->
  calls (on_message json blocked e) = []
  /\ exists requests,
       after (on_message json blocked e) = set_sync_requests requests e.
Proof.
  intros Hack.
  destruct (parse_plain_acknowledgement json root blocked e Hack)
    as [Hafter Hcalls].
  rewrite on_message_calls. split; [exact Hcalls|].
  apply on_message_after_parse, Hafter.
Qed.

Lemma parse_broken_reply json root blocked e :
  broken_reply e json root ->
  after (parse json blocked e) = e /\ calls (parse json blocked e) = [].
Proof.
  intros (Hj & Hs & category & Hc & Hbroken).
  unfold parse. rewrite Hj, Hc, Hs. sort_reply.
  destruct Hbroken as [Hr|[Hcat [Hr Hvalues]]]; rewrite Hr; [auto|].
  subst category.
  sort_reply. unfold parse_tracker_get. run. rewrite Hvalues. auto.
Qed.

(** X6. A reply with status OK whose request does not parse, or a
    tracker/get reply whose values do not parse, makes no call and changes
    nothing but the correlator: no snapshot is partly updated. *)
Theorem broken_reply_only_correlates json root blocked e :
  broken_reply e json root ->
  calls (on_message json blocked e) = []
  /\ exists requests,
       after (on_message json blocked e) = set_sync_requests requests e.
Proof.
  intros Hbroken.
  destruct (parse_broken_reply json root blocked e Hbroken)
    as [Hafter Hcalls].
  rewrite on_message_calls. split; [exact Hcalls|].
  apply on_message_after_parse, Hafter.
Qed.

Lemma parse_calibration_reply request json root blocked e :
  calibration_reply request json root ->
  after (parse json blocked e)
  = after (parse_calibration (with_request request Message_new) root e)
  /\ calls (parse json blocked e)
     = calls (parse_calibration (with_request request Message_new) root e).
Proof.
  intros (Hj & Hc & Hs & Hr). unfold parse. rewrite Hj, Hc, Hs, Hr.
  sort_reply. rewrite run_bind.
  match goal with
  | |- context [parse_calibration ?reply root e] =>
      change (parse_calibration reply root e)
        with (parse_calibration (with_request request Message_new) root e)
  end.
  destruct (parse_calibration _ root e) as [[[] e1] out1].
  rewrite run_ret. cbn. rewrite app_nil_r. auto.
Qed.

Lemma parse_calibration_start root e :
  parse_calibration (with_request GAR_START Message_new) root e
  = (tt, e, once_each (calib_process_observers e) on_calibration_started).
Proof.
  unfold parse_calibration. sort_reply. run. cbn.
  rewrite !app_nil_r. reflexivity.
Qed.

Lemma parse_calibration_abort root e :
  parse_calibration (with_request GAR_ABORT Message_new) root e
  = (tt, set_calibration_proxy CalibrationProxy.new e, []).
Proof. unfold parse_calibration. sort_reply. reflexivity. Qed.

Lemma parse_calibration_clear root e :
  parse_calibration (with_request GAR_CLEAR Message_new) root e
  = (tt, set_calib_result CalibResult_clear e, []).
Proof. unfold parse_calibration. sort_reply. reflexivity. Qed.

(** X7. The reply to calibration/start makes the dispatcher call
    [on_calibration_started] once on each calibration-process listener, in
    registration order, and nothing else; the progress tracker is not
    touched by the reply. *)
Theorem calibration_started_notified json root blocked e :
  calibration_reply GAR_START json root ->
  calls (on_message json blocked e)
  = once_each (calib_process_observers e) on_calibration_started
  /\ exists requests,
       after (on_message json blocked e) = set_sync_requests requests e.
Proof.
  intros Hreply.
  destruct (parse_calibration_reply GAR_START json root blocked e Hreply)
    as [Hafter Hcalls].
  rewrite parse_calibration_start in Hafter, Hcalls.
  rewrite on_message_calls, Hcalls. split; [reflexivity|].
  apply on_message_after_parse. rewrite Hafter. reflexivity.
Qed.

(** X8. The reply to calibration/abort clears the progress tracker, and
    the reply to calibration/clear clears the calibration-result snapshot;
    neither makes a call nor changes anything else but the correlator. *)
Theorem abort_and_clear_replies json root blocked e :
  (calibration_reply GAR_ABORT json root ->
   calls (on_message json blocked e) = []
   /\ exists requests,
        after (on_message json blocked e)
        = set_sync_requests requests
            (set_calibration_proxy CalibrationProxy.new e))
  /\ (calibration_reply GAR_CLEAR json root ->
      calls (on_message json blocked e) = []
      /\ exists requests,
           after (on_message json blocked e)
           = set_sync_requests requests
               (set_calib_result CalibResult_clear e)).
Proof.
  split; intros Hreply.
  - destruct (parse_calibration_reply GAR_ABORT json root blocked e Hreply)
      as [Hafter Hcalls].
    rewrite parse_calibration_abort in Hafter, Hcalls.
    rewrite on_message_calls, Hcalls. split; [reflexivity|].
    apply on_message_after_parse. rewrite Hafter. reflexivity.
  - destruct (parse_calibration_reply GAR_CLEAR json root blocked e Hreply)
      as [Hafter Hcalls].
    rewrite parse_calibration_clear in Hafter, Hcalls.
    rewrite on_message_calls, Hcalls. split; [reflexivity|].
    apply on_message_after_parse. rewrite Hafter. reflexivity.
Qed.

End MoreDispatcher.

(** ** More on replies that carry data *)

Section MorePayloads.

Context `{Parser}.

Lemma point_end_run_success root e calib_result :
  parse_calib_result root = Some (Some calib_result) ->
  result calib_result = true ->
  parse_calibration_point_end root e
  = (false,
     set_calibration_proxy CalibrationProxy.new
       (set_calib_result calib_result
          (set_calibration_proxy
             (CalibrationProxy.point_end (m_calibration_proxy e)) e)),
     once_each (calib_process_observers e)
       (on_calibration_progress
          (CalibrationProxy.get_progress
             (CalibrationProxy.point_end (m_calibration_proxy e))))
     ++ once_each (calib_result_observers e)
          (on_calibration_changed true calib_result)
     ++ once_each (calib_process_observers e)
          (on_calibration_result true calib_result)).
Proof.
  intros Hparsed Hok. unfold parse_calibration_point_end, once_each.
  run. rewrite Hparsed, Hok. cbn. rewrite Hok, !app_nil_r. reflexivity.
Qed.

Lemma point_end_run_no_result root e :
  parse_calib_result root = None \/ parse_calib_result root = Some None ->
  after (parse_calibration_point_end root e)
  = set_calibration_proxy
      (CalibrationProxy.point_end (m_calibration_proxy e)) e
  /\ calls (parse_calibration_point_end root e)
     = once_each (calib_process_observers e)
         (on_calibration_progress
            (CalibrationProxy.get_progress
               (CalibrationProxy.point_end (m_calibration_proxy e)))).
Proof.
  intros Hparsed. unfold parse_calibration_point_end, once_each. run.
  destruct Hparsed as [-> | ->]; cbn; rewrite !app_nil_r; auto.
Qed.

(** X3. A calibration/pointend reply that carries a final result whose
    success flag is true: the progress is published first, the result
    replaces the calibration-result snapshot and is passed once to each
    calibration-result listener, then once to each calibration-process
    listener, and the progress tracker is back to its idle state. *)
Theorem successful_result_stored_and_reported json root blocked e
    calib_result :
  point_end_reply json root ->
  parse_calib_result root = Some (Some calib_result) ->
  result calib_result = true ->
  let advanced := CalibrationProxy.point_end (m_calibration_proxy e) in
  calls (on_message json blocked e)
  = once_each (calib_process_observers e)
      (on_calibration_progress (CalibrationProxy.get_progress advanced))
    ++ once_each (calib_result_observers e)
         (on_calibration_changed true calib_result)
    ++ once_each (calib_process_observers e)
         (on_calibration_result true calib_result)
  /\ exists requests,
       after (on_message json blocked e)
       = set_sync_requests requests
           (set_calibration_proxy CalibrationProxy.new
              (set_calib_result calib_result e)).
Proof.
  intros Hreply Hparsed Hok advanced. subst advanced.
  destruct (parse_point_end_reply json root blocked e Hreply)
    as [Hafter Hcalls].
  rewrite (point_end_run_success root e calib_result Hparsed Hok)
    in Hafter, Hcalls.
  rewrite on_message_calls, Hcalls. split; [reflexivity|].
  apply on_message_after_parse. rewrite Hafter. reflexivity.
Qed.

(** X4. A calibration/pointend reply that carries no result, or whose
    result does not parse, still counts the point: the progress tracker is
    advanced, the new progress is passed once to each calibration-process
    listener, and nothing else is called or changed but the correlator. *)
Theorem point_end_without_result json root blocked e :
  point_end_reply json root ->
  parse_calib_result root = None \/ parse_calib_result root = Some None ->
  let advanced := CalibrationProxy.point_end (m_calibration_proxy e) in
  calls (on_message json blocked e)
  = once_each (calib_process_observers e)
      (on_calibration_progress (CalibrationProxy.get_progress advanced))
  /\ exists requests,
       after (on_message json blocked e)
       = set_sync_requests requests (set_calibration_proxy advanced e).
Proof.
  intros Hreply Hparsed advanced. subst advanced.
  destruct (parse_point_end_reply json root blocked e Hreply)
    as [Hafter Hcalls].
  destruct (point_end_run_no_result root e Hparsed) as [Hafter' Hcalls'].
  rewrite on_message_calls, Hcalls, Hcalls'. split; [reflexivity|].
  apply on_message_after_parse. rewrite Hafter, Hafter'. reflexivity.
Qed.








(** X2. [is_done()] during a run that starts without counted points: after
    [k] point-end events of a run of [N] points it is true exactly when
    [k = N]. *)
Theorem is_done_exactly_at_total N k p :
  CalibrationProxy.m_processed_points p = 0 ->
  0 <= N ->
  Z.of_nat k < size_max ->
  CalibrationProxy.is_done
    (Nat.iter k CalibrationProxy.point_end
       (CalibrationProxy.start_calibration N p))
  = bool_decide (Z.of_nat k = N).
Proof.
  intros Hfresh HN Hk.
  destruct (processed_of_iter k (CalibrationProxy.start_calibration N p))
    as [Hp Hc]; cbn; [lia|lia|].
  unfold CalibrationProxy.is_done. rewrite Hp, Hc. cbn. rewrite Hfresh.
  destruct (decide (Z.of_nat k = N)) as [Heq|Hne].
  - rewrite bool_decide_eq_true_2 by exact Heq. apply Z.eqb_eq. lia.
  - rewrite bool_decide_eq_false_2 by exact Hne. apply Z.eqb_neq. lia.
Qed.

End MorePayloads.

(** ** More on replies to tracker/get *)

Section MoreTrackerGet.

Context `{Parser}.

Lemma on_message_tracker_get_state json root blocked e server_state screen
    gaze_data calib_result :
  tracker_get_reply json root ->
  parse_server_state (m_server_proxy e) (m_screen e) root
  = Some (server_state, screen, gaze_data, calib_result) ->
  let r := on_message json blocked e in
  calls r = tracker_get_calls e server_state screen gaze_data calib_result
  /\ snapshots (after r)
     = (server_state, default (m_gaze_data e) gaze_data,
        default (m_calib_result e) calib_result, screen)
  /\ m_calibration_proxy (after r) = m_calibration_proxy e.
Proof.
  intros Hreply Hp r. subst r.
  destruct (on_message_tracker_get json root blocked e _ _ _ _ Hreply Hp)
    as (Hcalls & _).
  split; [exact Hcalls|].
  destruct (parse_tracker_get_reply json root blocked e Hreply)
    as [Hafter _].
  destruct (parse_tracker_get_run root e _ _ _ _ Hp)
    as (_ & Hs & Hscr & Hg & Hc & _ & Hproxy).
  destruct (on_message_after_parse json blocked e _ Hafter)
    as [requests ->].
  unfold snapshots. cbn [m_server_proxy m_gaze_data m_calib_result m_screen
    m_calibration_proxy set_sync_requests].
  cbn zeta in Hs, Hscr, Hg, Hc, Hproxy.
  rewrite Hs, Hscr, Hg, Hc, Hproxy. auto.
Qed.

Lemma gaze_notifications_once_each observers c :
  List.filter is_gaze_notification (once_each observers c)
  = match c with
    | on_gaze_data _ => once_each observers c
    | _ => []
    end.
Proof.
  destruct c;
    first [ apply (filter_once_each _ _ _ false); reflexivity
          | apply (filter_once_each _ _ _ true); reflexivity ].
Qed.

Lemma calibration_changed_once_each observers c :
  List.filter is_calibration_changed (once_each observers c)
  = match c with
    | on_calibration_changed _ _ => once_each observers c
    | _ => []
    end.
Proof.
  destruct c;
    first [ apply (filter_once_each _ _ _ false); reflexivity
          | apply (filter_once_each _ _ _ true); reflexivity ].
Qed.

(** X9. A tracker/get reply that carries a gaze sample: the sample
    replaces the gaze snapshot as a whole, and [on_gaze_data] is called
    with it once on each gaze listener, in registration order, before any
    other listener is called for that reply. *)
Theorem gaze_sample_stored_and_notified json root blocked e server_state
    screen gaze_data calib_result :
  tracker_get_reply json root ->
  parse_server_state (m_server_proxy e) (m_screen e) root
  = Some (server_state, screen, Some gaze_data, calib_result) ->
  let r := on_message json blocked e in
  m_gaze_data (after r) = gaze_data
  /\ List.filter is_gaze_notification (calls r)
     = once_each (gaze_observers e) (on_gaze_data gaze_data)
  /\ exists rest,
       calls r = once_each (gaze_observers e) (on_gaze_data gaze_data) ++ rest
       /\ List.filter is_gaze_notification rest = [].
Proof.
  intros Hreply Hp r.
  destruct (on_message_tracker_get_state json root blocked e _ _ _ _
              Hreply Hp) as (Hcalls & Hsnap & _).
  fold r in Hcalls, Hsnap. unfold snapshots in Hsnap.
  injection Hsnap as _ Hg _ _.
  assert (Hrest : exists rest,
    calls r = once_each (gaze_observers e) (on_gaze_data gaze_data) ++ rest
    /\ List.filter is_gaze_notification rest = []).
  { rewrite Hcalls. unfold tracker_get_calls. eexists. split; [reflexivity|].
    rewrite !List.filter_app.
    destruct calib_result; destruct (decide (screen = m_screen e));
      destruct (decide (trackerstate server_state
                        = trackerstate (m_server_proxy e)));
      rewrite ?gaze_notifications_once_each; reflexivity. }
  split; [exact Hg|]. split; [|exact Hrest].
  destruct Hrest as (rest & -> & Hnone).
  rewrite List.filter_app, Hnone, gaze_notifications_once_each.
  apply app_nil_r.
Qed.

(** X10. A tracker/get reply that carries a calibration result: the result
    replaces the calibration-result snapshot and is passed once to each
    calibration-result listener whether its success flag is true or false
    (the pointend path stores a result only when the flag is true). *)
Theorem tracker_get_calibration_result_stored json root blocked e
    server_state screen gaze_data calib_result :
  tracker_get_reply json root ->
  parse_server_state (m_server_proxy e) (m_screen e) root
  = Some (server_state, screen, gaze_data, Some calib_result) ->
  let r := on_message json blocked e in
  m_calib_result (after r) = calib_result
  /\ List.filter is_calibration_changed (calls r)
     = once_each (calib_result_observers e)
         (on_calibration_changed (result calib_result) calib_result).
Proof.
  intros Hreply Hp r.
  destruct (on_message_tracker_get_state json root blocked e _ _ _ _
              Hreply Hp) as (Hcalls & Hsnap & _).
  fold r in Hcalls, Hsnap. unfold snapshots in Hsnap.
  injection Hsnap as _ _ Hc _.
  split; [exact Hc|].
  rewrite Hcalls. unfold tracker_get_calls. rewrite !List.filter_app.
  destruct gaze_data; destruct (decide (screen = m_screen e));
    destruct (decide (trackerstate server_state
                      = trackerstate (m_server_proxy e)));
    rewrite ?calibration_changed_once_each; cbn [app];
    rewrite ?app_nil_r; reflexivity.
Qed.

(** X11. A tracker/get reply whose parsed screen and tracker state are
    those of the snapshots, and which carries neither a gaze sample nor a
    calibration result, calls no listener; the server-state snapshot is
    replaced by the parsed one and the other snapshots stay. *)
Theorem unchanged_tracker_get_is_silent json root blocked e server_state :
  tracker_get_reply json root ->
  parse_server_state (m_server_proxy e) (m_screen e) root
  = Some (server_state, m_screen e, None, None) ->
  trackerstate server_state = trackerstate (m_server_proxy e) ->
  let r := on_message json blocked e in
  calls r = []
  /\ snapshots (after r)
     = (server_state, m_gaze_data e, m_calib_result e, m_screen e).
Proof.
  intros Hreply Hp Hsame r.
  destruct (on_message_tracker_get_state json root blocked e _ _ _ _
              Hreply Hp) as (Hcalls & Hsnap & _).
  fold r in Hcalls, Hsnap. split; [|exact Hsnap].
  rewrite Hcalls. unfold tracker_get_calls.
  destruct (decide (m_screen e = m_screen e)); [|contradiction].
  destruct (decide (trackerstate server_state
                    = trackerstate (m_server_proxy e)));
    [reflexivity|contradiction].
Qed.

End MoreTrackerGet.

(** ** The correlator and the synchronous operations *)

Section Correlator.

Context `{Parser}.

Lemma value_then_ret {A B} (m : M A) (b : B) e :
  value ((m;; mret b) e) = b.
Proof. rewrite run_bind. destruct (m e) as [[a e1] out1]. reflexivity. Qed.

(** What [parse] hands back for a message that is JSON. *)
Lemma parse_value json root blocked e :
  read_json json = Some root ->
  exists reply,
    value (parse json blocked e) = Some reply
    /\ m_id reply = default (-1) (parse_id root)
    /\ m_statuscode reply = status_read root.
Proof.
  intros Hj. unfold parse, status_read. rewrite Hj.
  destruct (parse_category root) as [category|];
    [|eexists; split; [reflexivity|]; split; reflexivity].
  destruct (parse_status_code root) as [statuscode|];
    [|eexists; split; [reflexivity|]; split; reflexivity].
  destruct (_ && _);
    [eexists; split; [reflexivity|]; split; reflexivity|].
  destruct (is_notification _);
    [eexists; split; [apply value_then_ret|]; split; reflexivity|].
  destruct (parse_request root) as [request|];
    [|eexists; split; [reflexivity|]; split; reflexivity].
  destruct (is_category _ GAC_TRACKER);
    [eexists; split; [apply value_then_ret|]; split; reflexivity|].
  destruct (is_category _ GAC_CALIBRATION);
    eexists; (split; [first [apply value_then_ret|reflexivity]|]);
    split; reflexivity.
Qed.

Lemma reply_stored json root blocked e id :
  read_json json = Some root ->
  parse_id root = Some id ->
  0 <= id ->
  exists msg,
    m_sync_requests (after (on_message json blocked e)) !! id = Some msg
    /\ m_id msg = id
    /\ m_statuscode msg = status_read root.
Proof.
  intros Hj Hid Hpos.
  destruct (parse_value json root blocked e Hj)
    as (reply & Hvalue & Hmid & Hstatus).
  rewrite Hid in Hmid. cbn in Hmid.
  exists reply. rewrite on_message_after, Hvalue. unfold correlate, has_id.
  rewrite Hmid. rewrite (proj2 (Z.leb_le 0 id) Hpos).
  cbn [m_sync_requests set_sync_requests].
  rewrite lookup_insert_eq. auto.
Qed.

(** X12. Whatever else the dispatcher does with it, a message that is JSON
    and carries a non-negative id is in the correlator under that id when
    [on_message] returns, also when it is otherwise discarded.  The status
    code stored with it is the parsed one when the category and the status
    code both parse; when either does not, it is the error status of a
    fresh message: the status code of a message with a broken category is
    never read, so that an OK reply with a broken category stands in the
    correlator as an error. *)
Theorem reply_with_id_is_stored json root blocked e id :
  read_json json = Some root ->
  parse_id root = Some id ->
  0 <= id ->
  exists msg,
    m_sync_requests (after (on_message json blocked e)) !! id = Some msg
    /\ m_id msg = id
    /\ m_statuscode msg = status_read root.
Proof.
  intros Hj Hid Hpos.
  destruct (parse_value json root blocked e Hj)
    as (reply & Hvalue & Hmid & Hstatus).
  rewrite Hid in Hmid. cbn in Hmid.
  exists reply. rewrite on_message_after, Hvalue. unfold correlate, has_id.
  rewrite Hmid. rewrite (proj2 (Z.leb_le 0 id) Hpos).
  cbn [m_sync_requests set_sync_requests].
  rewrite lookup_insert_eq. auto.
Qed.

(** *** The id written into each request *)

Ltac read_id :=
  match goal with
  | |- get_id (_ +:+ _ +:+ _ +:+ _ +:+ _ +:+ ?rest) = _ =>
      generalize rest; intros ?; vm_compute; reflexivity
  end.

Lemma get_id_set_screen_request screen :
  get_id (set_screen_request screen) = SR_SET_SCREEN.
Proof. unfold set_screen_request. read_id. Qed.

Lemma get_id_set_version_request version :
  get_id (set_version_request version) = SR_SET_VERSION.
Proof. unfold set_version_request. read_id. Qed.

Lemma get_id_calibration_start_request point_count :
  get_id (calibration_start_request point_count) = SR_CALIB_START.
Proof. unfold calibration_start_request. read_id. Qed.

Lemma get_id_calibration_point_start_request x y :
  get_id (calibration_point_start_request x y) = SR_CALIB_POINT_START.
Proof. unfold calibration_point_start_request. read_id. Qed.

End Correlator.

Section Synchronous.

Context `{Parser}.

(** The body shared by the synchronous operations. *)
Lemma sync_answer_unanswered message id e :
  m_state e <> AS_STOPPED ->
  get_id message = id ->
  id <> -1 ->
  (send_sync message (receive_all []);;
   msg ← sync_request id; mret (is_statuscode msg GASC_OK)) e
  = (false,
     set_sync_requests (<[id := Message_new]> (m_sync_requests e)) e,
     [SocketSendSync message]).
Proof.
  intros Hrun Hid Hne. rewrite run_bind.
  rewrite send_sync_not_stopped by (rewrite ?Hid; assumption).
  rewrite Hid. cbn [receive_all]. cbn zeta.
  change (after ((mret tt : M unit) ?e1)) with e1.
  rewrite run_bind. unfold sync_request. rewrite run_bind. cbn [get].
  cbn [m_sync_requests set_sync_requests]. rewrite lookup_insert_eq.
  reflexivity.
Qed.

(** X14. A synchronous operation on a running engine that gets no reply
    while it waits: the request is sent once, the answer is false, and the
    correlator entry of the operation is the reset one, also when an
    earlier call had left an OK reply there. *)
Theorem unanswered_call_returns_false screen version x y e :
  m_state e <> AS_STOPPED ->
  set_screen screen [] e
  = (false,
     set_sync_requests
       (<[SR_SET_SCREEN := Message_new]> (m_sync_requests e)) e,
     [SocketSendSync (set_screen_request screen)])
  /\ set_version version [] e
     = (false,
        set_sync_requests
          (<[SR_SET_VERSION := Message_new]> (m_sync_requests e)) e,
        [SocketSendSync (set_version_request version)])
  /\ calibration_point_start x y [] e
     = (false,
        set_sync_requests
          (<[SR_CALIB_POINT_START := Message_new]> (m_sync_requests e)) e,
        [SocketSendSync (calibration_point_start_request x y)]).
Proof.
  intros Hrun. repeat split.
  - apply sync_answer_unanswered; [exact Hrun| |discriminate].
    apply get_id_set_screen_request.
  - apply sync_answer_unanswered; [exact Hrun| |discriminate].
    apply get_id_set_version_request.
  - apply sync_answer_unanswered; [exact Hrun| |discriminate].
    apply get_id_calibration_point_start_request.
Qed.

Lemma sync_answer_acknowledged message id json root e :
  m_state e <> AS_STOPPED ->
  get_id message = id ->
  0 <= id ->
  plain_acknowledgement json root ->
  parse_id root = Some id ->
  let r :=
    (send_sync message (receive_all [EvMessage json []]);;
     msg ← sync_request id; mret (is_statuscode msg GASC_OK)) e in
  value r = true
  /\ calls r = [SocketSendSync message]
  /\ exists requests, after r = set_sync_requests requests e.
Proof.
  intros Hrun Hid Hpos Hack Hjid r. subst r.
  rewrite run_bind.
  rewrite send_sync_not_stopped by (rewrite ?Hid; first [assumption|lia]).
  rewrite Hid. cbn zeta.
  set (e1 := set_sync_requests
               (<[id := Message_new]> (m_sync_requests e)) e).
  assert (Hreceive : receive_all [EvMessage json []] e1
                     = (tt, after (on_message json (mret tt) e1),
                        calls (on_message json (mret tt) e1))).
  { cbn [receive_all]. rewrite run_bind, receive_message.
    cbn [receive_all].
    destruct (on_message json (mret tt) e1) as [[[] e2] out2].
    rewrite run_ret. cbn. rewrite app_nil_r. reflexivity. }
  rewrite Hreceive. cbn [after calls fst snd].
  destruct Hack as (Hj & Hs & Hkind).
  destruct (reply_stored json root (mret tt) e1 id Hj Hjid Hpos)
    as (msg & Hlookup & _ & Hstatus).
  destruct Hkind as (category & request & Hc & Hr & Hkind).
  unfold status_read in Hstatus. rewrite Hc, Hs in Hstatus.
  destruct (parse_plain_acknowledgement json root (mret tt) e1
              (conj Hj (conj Hs (ex_intro _ category
                 (ex_intro _ request (conj Hc (conj Hr Hkind)))))))
    as [Hafter Hcalls].
  destruct (on_message_after_parse json (mret tt) e1 e1 Hafter)
    as [requests Hstate].
  rewrite on_message_calls, Hcalls.
  rewrite Hstate in Hlookup |- *.
  rewrite run_bind. unfold sync_request. rewrite run_bind. cbn [get].
  rewrite Hlookup. rewrite !run_ret. cbn.
  unfold is_statuscode. rewrite Hstatus.
  split; [reflexivity|]. split; [reflexivity|].
  exists requests. reflexivity.
Qed.

(** X15. A synchronous operation on a running engine whose acknowledgement
    (status OK, the id of the operation) is delivered while it waits
    answers true, having sent its request once.  [set_screen] itself does
    not touch the screen snapshot: only the correlator differs
    afterwards. *)
Theorem acknowledged_call_returns_true screen x y json root e :
  m_state e <> AS_STOPPED ->
  plain_acknowledgement json root ->
  (parse_id root = Some SR_SET_SCREEN ->
   value (set_screen screen [EvMessage json []] e) = true
   /\ calls (set_screen screen [EvMessage json []] e)
      = [SocketSendSync (set_screen_request screen)]
   /\ exists requests,
        after (set_screen screen [EvMessage json []] e)
        = set_sync_requests requests e)
  /\ (parse_id root = Some SR_CALIB_POINT_START ->
      value (calibration_point_start x y [EvMessage json []] e) = true
      /\ calls (calibration_point_start x y [EvMessage json []] e)
         = [SocketSendSync (calibration_point_start_request x y)]
      /\ exists requests,
           after (calibration_point_start x y [EvMessage json []] e)
           = set_sync_requests requests e).
Proof.
  intros Hrun Hack. split; intros Hid.
  - apply (sync_answer_acknowledged _ SR_SET_SCREEN json root e);
      try assumption; [|discriminate].
    apply get_id_set_screen_request.
  - apply (sync_answer_acknowledged _ SR_CALIB_POINT_START json root e);
      try assumption; [|discriminate].
    apply get_id_calibration_point_start_request.
Qed.

(** X16. [calibration_start( point_count )] on a running engine whose
    acknowledgement is delivered while it waits: the progress tracker holds
    the new total (as a [size_t]) and is calibrating before the request is
    sent, the request is sent once, the calibration-process listeners are
    told that calibration started, and the answer is true. *)
Theorem calibration_start_acknowledged point_count json root e :
  m_state e <> AS_STOPPED ->
  calibration_reply GAR_START json root ->
  parse_id root = Some SR_CALIB_START ->
  let r := calibration_start point_count [EvMessage json []] e in
  value r = true
  /\ calls r
     = SocketSendSync (calibration_start_request point_count)
       :: once_each (calib_process_observers e) on_calibration_started
  /\ exists requests,
       after r
       = set_sync_requests requests
           (set_calibration_proxy
              (CalibrationProxy.start_calibration (to_size_t point_count)
                 (m_calibration_proxy e)) e).
Proof.
  intros Hrun Hreply Hjid r. subst r.
  unfold calibration_start. rewrite run_bind. cbn [modify].
  set (e0 := set_calibration_proxy _ e).
  assert (Hrun0 : m_state e0 <> AS_STOPPED) by exact Hrun.
  assert (Hid : get_id (calibration_start_request point_count)
                = SR_CALIB_START)
    by apply get_id_calibration_start_request.
  rewrite run_bind.
  rewrite send_sync_not_stopped
    by (rewrite ?Hid; first [assumption|discriminate]).
  rewrite Hid. cbn zeta.
  set (e1 := set_sync_requests
               (<[SR_CALIB_START := Message_new]> (m_sync_requests e0)) e0).
  assert (Hreceive : receive_all [EvMessage json []] e1
                     = (tt, after (on_message json (mret tt) e1),
                        calls (on_message json (mret tt) e1))).
  { cbn [receive_all]. rewrite run_bind, receive_message.
    cbn [receive_all].
    destruct (on_message json (mret tt) e1) as [[[] e2] out2].
    rewrite run_ret. cbn. rewrite app_nil_r. reflexivity. }
  rewrite Hreceive. cbn [after calls fst snd].
  pose proof Hreply as (Hj & Hc & Hs & Hr).
  destruct (reply_stored json root (mret tt) e1 SR_CALIB_START Hj Hjid)
    as (msg & Hlookup & _ & Hstatus); [discriminate|].
  unfold status_read in Hstatus. rewrite Hc, Hs in Hstatus.
  destruct (parse_calibration_reply GAR_START json root (mret tt) e1 Hreply)
    as [Hafter Hcalls].
  rewrite parse_calibration_start in Hafter, Hcalls.
  destruct (on_message_after_parse json (mret tt) e1 e1 Hafter)
    as [requests Hstate].
  rewrite on_message_calls, Hcalls.
  rewrite Hstate in Hlookup |- *.
  rewrite run_bind. unfold sync_request. rewrite run_bind. cbn [get].
  rewrite Hlookup. rewrite !run_ret. cbn.
  unfold is_statuscode. rewrite Hstatus.
  split; [reflexivity|]. split; [rewrite app_nil_r; reflexivity|].
  exists requests. reflexivity.
Qed.

End Synchronous.

(** ** What the receive context keeps, and what it never calls *)

Section KeepRules.

Context `{Parser}.
Variables (I : Engine -> Prop) (C : effect -> Prop).

Lemma keeps_ret {A} (a : A) : keeps I C (mret a : M A).
Proof. intros e He. split; [exact He|constructor]. Qed.

Lemma keeps_bind {A B} (m : M A) (f : A -> M B) :
  keeps I C m -> (forall a, keeps I C (f a)) -> keeps I C (m ≫= f).
Proof.
  intros Hm Hf e He. rewrite run_bind.
  destruct (Hm e He) as [He1 Hout1].
  destruct (m e) as [[a e1] out1].
  destruct (Hf a e1 He1) as [He2 Hout2].
  destruct (f a e1) as [[b e2] out2].
  cbn in *. split; [exact He2|]. apply Forall_app. auto.
Qed.

Lemma keeps_get : keeps I C get.
Proof. intros e He. split; [exact He|constructor]. Qed.

Lemma keeps_modify f : (forall e, I e -> I (f e)) -> keeps I C (modify f).
Proof. intros Hf e He. split; [apply Hf, He|constructor]. Qed.

Lemma keeps_emit x : C x -> keeps I C (emit x).
Proof. intros Hx e He. split; [exact He|]. repeat constructor. exact Hx. Qed.

Lemma keeps_notify observers c :
  (forall o, C (Notify o c)) -> keeps I C (notify observers c).
Proof.
  intros Hc e He. split; [exact He|]. unfold notify, calls. cbn.
  apply Forall_forall. intros x Hx.
  apply list_elem_of_In, in_map_iff in Hx as (o & <- & _). apply Hc.
Qed.

End KeepRules.

Section KeepDispatch.

Context `{Parser}.
Variables (I : Engine -> Prop) (C : effect -> Prop).

Hypothesis I_frame :
  forall e e',
    m_state e' = m_state e -> registries e' = registries e -> I e -> I e'.
Hypothesis C_notify :
  forall o c, c <> on_connection_state_changed true -> C (Notify o c).
Hypothesis keeps_changes :
  forall s blocked,
    keeps I C blocked ->
    keeps I C (send_sync (changes_request (changed_values s)) blocked).
Hypothesis keeps_disconnect : keeps I C disconnect.

Ltac keep :=
  repeat first
    [ assumption
    | apply keeps_changes
    | apply keeps_disconnect
    | apply keeps_ret
    | apply keeps_get
    | apply keeps_modify; intros ? ?; eapply I_frame;
        [| |eassumption]; reflexivity
    | apply keeps_notify; intros ?; apply C_notify; discriminate
    | apply keeps_bind; [|intros ?]
    | match goal with
      | |- keeps _ _ (if ?b then _ else _) => destruct b
      | |- keeps _ _ (match ?x with _ => _ end) => destruct x
      end ].

Lemma keeps_parse json blocked :
  keeps I C blocked -> keeps I C (parse json blocked).
Proof.
  intros Hb. unfold parse, parse_tracker_get, parse_calibration,
    parse_calibration_point_end.
  keep.
Qed.

Lemma keeps_on_message json blocked :
  keeps I C blocked -> keeps I C (on_message json blocked).
Proof.
  intros Hb. unfold on_message, store_sync_request.
  apply keeps_bind; [apply keeps_parse, Hb|]. intros r. keep.
Qed.

Lemma keeps_on_disconnected : keeps I C on_disconnected.
Proof. unfold on_disconnected. keep. Qed.

Lemma keeps_receive_all_of l :
  Forall (fun ev => keeps I C (receive ev)) l -> keeps I C (receive_all l).
Proof. induction 1 as [|ev l Hev _ IH]; cbn [receive_all]; keep. Qed.

Lemma keeps_receive ev : keeps I C (receive ev).
Proof.
  induction ev as [message during IH|] using event_nested_ind.
  - rewrite receive_message.
    apply keeps_on_message, keeps_receive_all_of, IH.
  - apply keeps_on_disconnected.
Qed.

Lemma keeps_receive_all l : keeps I C (receive_all l).
Proof.
  apply keeps_receive_all_of, Forall_forall.
  intros ev _. apply keeps_receive.
Qed.

End KeepDispatch.

Section Invariants.

Context `{Parser}.

Lemma keeps_registries_receive_all R l :
  keeps (fun e => registries e = R) (fun _ => True) (receive_all l).
Proof.
  apply keeps_receive_all.
  - intros e e' _ Hr He. congruence.
  - auto.
  - intros s blocked Hb. unfold send_sync, store_sync_request.
    apply keeps_bind; [apply keeps_get|]. intros e.
    destruct (_ && _); [|apply keeps_ret].
    apply keeps_bind; [apply keeps_modify; auto|]. intros _.
    apply keeps_bind; [apply keeps_emit; exact Logic.I|]. intros _. exact Hb.
  - unfold disconnect.
    apply keeps_bind; [apply keeps_get|]. intros e.
    destruct (bool_decide _); [|apply keeps_ret].
    apply keeps_bind; [apply keeps_modify; auto|]. intros _.
    apply keeps_emit. exact Logic.I.
Qed.

Lemma keeps_stopped_receive_all l :
  keeps (fun e => m_state e = AS_STOPPED) is_listener_call (receive_all l).
Proof.
  apply keeps_receive_all.
  - intros e e' Hs _ He. congruence.
  - intros o c _. exact Logic.I.
  - intros s blocked _ e He. rewrite send_sync_stopped by exact He.
    split; [exact He|constructor].
  - intros e He. rewrite disconnect_stopped by exact He.
    split; [exact He|constructor].
Qed.

Lemma keeps_receive_calls l :
  keeps (fun _ => True) is_receive_call (receive_all l).
Proof.
  apply keeps_receive_all.
  - auto.
  - intros o c Hc. exact Hc.
  - intros s blocked Hb. unfold send_sync, store_sync_request.
    apply keeps_bind; [apply keeps_get|]. intros e.
    destruct (_ && _); [|apply keeps_ret].
    apply keeps_bind; [apply keeps_modify; auto|]. intros _.
    apply keeps_bind; [|intros _; exact Hb].
    apply keeps_emit. exists s. reflexivity.
  - unfold disconnect.
    apply keeps_bind; [apply keeps_get|]. intros e.
    destruct (bool_decide _); [|apply keeps_ret].
    apply keeps_bind; [apply keeps_modify; auto|]. intros _.
    apply keeps_emit. exact Logic.I.
Qed.

(** X17. The receive context never changes who is registered: whatever
    messages and disconnections it handles, nested in any way, the five
    listener registries are afterwards what they were. *)
Theorem receive_keeps_registries l e :
  registries (after (receive_all l e)) = registries e.
Proof.
  destruct (keeps_registries_receive_all (registries e) l e eq_refl)
    as [Hkept _].
  exact Hkept.
Qed.

(** X18. While the engine is Stopped the receive context never touches
    the socket: whatever it is given to handle, every call it makes is a
    call on a listener (no request follows a notification, nothing is
    disconnected again), and the engine is still Stopped afterwards. *)
Theorem stopped_receive_leaves_socket_alone l e :
  m_state e = AS_STOPPED ->
  m_state (after (receive_all l e)) = AS_STOPPED
  /\ Forall is_listener_call (calls (receive_all l e)).
Proof.
  intros Hs.
  destruct (keeps_stopped_receive_all l e Hs) as [Hstill Hcalls].
  split; [exact Hstill|exact Hcalls].
Qed.


End Invariants.

(** ** More on the life cycle *)

Section KeepHandshake.

Context `{Parser}.
Variables (I : Engine -> Prop) (C : effect -> Prop).

Hypothesis I_frame :
  forall e e',
    m_state e' = m_state e -> registries e' = registries e -> I e -> I e'.
Hypothesis keeps_events : forall l, keeps I C (receive_all l).
Hypothesis C_version_request : C (SocketSend version_request).
Hypothesis C_set_version :
  forall version, C (SocketSendSync (set_version_request version)).

Lemma keeps_frame_modify f :
  (forall e, m_state (f e) = m_state e /\ registries (f e) = registries e) ->
  keeps I C (modify f).
Proof.
  intros Hf. apply keeps_modify. intros e He.
  destruct (Hf e) as [Hs Hr]. exact (I_frame e (f e) Hs Hr He).
Qed.

Lemma keeps_poll_version wait sleeps : keeps I C (poll_version wait sleeps).
Proof.
  revert sleeps. induction wait as [|wait IH]; intros sleeps;
    cbn [poll_version]; [apply keeps_ret|].
  apply keeps_bind; [apply keeps_get|]. intros e.
  destruct (version (m_server_proxy e) =? 0); [|apply keeps_ret].
  apply keeps_bind; [apply keeps_events|]. intros _. apply IH.
Qed.

Lemma keeps_get_default_version sleeps :
  keeps I C (get_default_version sleeps).
Proof.
  unfold get_default_version, send_async.
  apply keeps_bind; [apply keeps_get|]. intros e0.
  apply keeps_bind; [apply keeps_frame_modify; auto|]. intros _.
  apply keeps_bind.
  { apply keeps_bind; [apply keeps_get|]. intros e1.
    destruct (bool_decide _); [|apply keeps_ret].
    apply keeps_emit, C_version_request. }
  intros _.
  apply keeps_bind; [apply keeps_poll_version|]. intros _.
  apply keeps_bind; [apply keeps_get|]. intros e2.
  apply keeps_bind; [apply keeps_frame_modify; auto|]. intros _.
  apply keeps_ret.
Qed.

Lemma keeps_set_version version during :
  keeps I C (set_version version during).
Proof.
  unfold set_version, send_sync, sync_request, store_sync_request.
  apply keeps_bind.
  { apply keeps_bind; [apply keeps_get|]. intros e.
    destruct (_ && _); [|apply keeps_ret].
    apply keeps_bind; [apply keeps_frame_modify; auto|]. intros _.
    apply keeps_bind; [apply keeps_emit, C_set_version|]. intros _.
    apply keeps_events. }
  intros _.
  apply keeps_bind; [|intros msg; apply keeps_ret].
  apply keeps_bind; [apply keeps_get|]. intros e.
  destruct (m_sync_requests e !! SR_SET_VERSION); [apply keeps_ret|].
  apply keeps_bind; [apply keeps_frame_modify; auto|]. intros _.
  apply keeps_ret.
Qed.

End KeepHandshake.

Section MoreLifecycle.

Context `{Parser}.

(** The calls of the version handshake: those of the receive context, the
    version request, and a set-version request. *)
Lemma handshake_calls sleeps version during e :
  let ok x :=
    is_receive_call x \/ x = SocketSend version_request
    \/ exists v, x = SocketSendSync (set_version_request v) in
  Forall ok (calls (get_default_version sleeps e))
  /\ Forall ok (calls (set_version version during e)).
Proof.
  intros ok.
  assert (Hevents : forall l, keeps (fun _ => True) ok (receive_all l)).
  { intros l e' _. split; [exact Logic.I|].
    destruct (keeps_receive_calls l e' Logic.I) as [_ Hcalls].
    eapply Forall_impl; [exact Hcalls|]. intros x Hx. left. exact Hx. }
  split.
  - apply (keeps_get_default_version (fun _ => True) ok); auto.
    unfold ok. auto.
  - apply (keeps_set_version (fun _ => True) ok); auto.
    intros version'. unfold ok. eauto.
Qed.

Lemma handshake_registries sleeps version during e :
  registries (after (get_default_version sleeps e)) = registries e
  /\ registries (after (set_version version during e)) = registries e.
Proof.
  assert (Hframe : forall e0 e' : Engine,
    m_state e' = m_state e0 -> registries e' = registries e0 ->
    registries e0 = registries e -> registries e' = registries e)
    by (intros; congruence).
  split.
  - apply (keeps_get_default_version (fun e' => registries e' = registries e)
             (fun _ => True)); auto.
    intros l. apply keeps_registries_receive_all.
  - apply (keeps_set_version (fun e' => registries e' = registries e)
             (fun _ => True)); auto.
    intros l. apply keeps_registries_receive_all.
Qed.

Lemma handshake_call_is_harmless x :
  (is_receive_call x \/ x = SocketSend version_request
   \/ exists v, x = SocketSendSync (set_version_request v)) ->
  x <> SocketSendSync tracker_state_request
  /\ forall o, x <> Notify o (on_connection_state_changed true).
Proof.
  intros [Hx|[->|[v ->]]].
  - split.
    + intros ->. destruct Hx as [s Hs]. symmetry in Hs.
      exact (changes_request_not_state_query s Hs).
    + intros o ->. apply Hx. reflexivity.
  - split; [discriminate|]. intros o. discriminate.
  - split; [|intros o; discriminate].
    unfold set_version_request. intros [= Heq].
Qed.

(** [connect] from Stopped once the socket has connected, in terms of the
    outcomes of the two steps of the handshake. *)
Lemma connect_run host port c e reported e1 out1 accepted e2 out2 :
  m_state e = AS_STOPPED ->
  socket_connects c = true ->
  get_default_version (while_polling c)
    (connect_opened (connect_prepare host port e))
  = (reported, e1, out1) ->
  set_version VERSION (while_set_version c) e1 = (accepted, e2, out2) ->
  connect host port c e
  = if reported <? VERSION then
      (false, after (disconnect e1),
       SocketConnect host port :: out1 ++ calls (disconnect e1))
    else if accepted then
      (true, after (get_tracker_state (while_get_tracker_state c) e2),
       SocketConnect host port
         :: out1 ++ out2
            ++ once_each (connection_state_observers e2)
                 (on_connection_state_changed true)
            ++ calls (get_tracker_state (while_get_tracker_state c) e2))
    else
      (false, after (disconnect e2),
       SocketConnect host port :: out1 ++ out2 ++ calls (disconnect e2)).
Proof.
  intros Hs Hc Hpolled Hset. unfold connect.
  rewrite run_bind. cbn [get].
  rewrite bool_decide_eq_false_2
    by (intros Hn; apply Hn; symmetry; exact Hs).
  rewrite Hc.
  rewrite run_bind. cbn [modify].
  rewrite run_bind. cbn [emit].
  rewrite run_bind. cbn [modify].
  rewrite run_bind. rewrite Hpolled.
  destruct (reported <? VERSION).
  - rewrite run_bind.
    destruct (disconnect e1) as [[[] e1'] out1'].
    rewrite run_ret. cbn [app after calls fst snd].
    rewrite app_nil_r. reflexivity.
  - rewrite run_bind, Hset. destruct accepted; cbn [negb].
    + rewrite run_bind. cbn [get]. rewrite run_bind. unfold notify at 1.
      rewrite run_bind.
      destruct (get_tracker_state _ e2) as [[[] e3] out3].
      rewrite run_ret. cbn [app after calls fst snd].
      rewrite !app_nil_r. reflexivity.
    + rewrite run_bind.
      destruct (disconnect e2) as [[[] e2'] out2'].
      rewrite run_ret. cbn [app after calls fst snd].
      rewrite app_nil_r. reflexivity.
Qed.

Lemma connect_socket_fails host port c e :
  m_state e = AS_STOPPED ->
  socket_connects c = false ->
  connect host port c e
  = (false, connect_prepare host port e, [SocketConnect host port]).
Proof.
  intros Hs Hc. unfold connect. rewrite run_bind. cbn [get].
  rewrite bool_decide_eq_false_2
    by (intros Hn; apply Hn; symmetry; exact Hs).
  rewrite Hc. reflexivity.
Qed.

(** X20. Every failure of [connect] leaves the session Stopped and
    unannounced: when [connect] called on a Stopped engine returns false
    (the socket did not connect, the server's version is too old or never
    came, or set-version was not acknowledged), the engine is Stopped
    afterwards, no listener has been told that the connection is up, and
    the baseline query has not been sent. *)
Theorem failed_connect_stays_stopped host port c e :
  m_state e = AS_STOPPED ->
  value (connect host port c e) = false ->
  m_state (after (connect host port c e)) = AS_STOPPED
  /\ (forall o,
        ~ In (Notify o (on_connection_state_changed true))
             (calls (connect host port c e)))
  /\ ~ In (SocketSendSync tracker_state_request)
          (calls (connect host port c e)).
Proof.
  intros Hs Hfalse.
  destruct (socket_connects c) eqn:Hc.
  2:{ rewrite (connect_socket_fails host port c e Hs Hc).
      split; [exact Hs|]. split.
      - intros o [Hin|[]]. discriminate Hin.
      - intros [Hin|[]]. discriminate Hin. }
  destruct (handshake_calls (while_polling c) VERSION (while_set_version c)
              (connect_opened (connect_prepare host port e)))
    as [Hout1 _].
  destruct (get_default_version (while_polling c)
              (connect_opened (connect_prepare host port e)))
    as [[reported e1] out1] eqn:Hpolled.
  destruct (handshake_calls [] VERSION (while_set_version c) e1)
    as [_ Hout2].
  destruct (set_version VERSION (while_set_version c) e1)
    as [[accepted e2] out2] eqn:Hset.
  cbn [calls snd] in Hout1, Hout2.
  rewrite (connect_run host port c e _ _ _ _ _ _ Hs Hc Hpolled Hset)
    in Hfalse |- *.
  assert (Hharmless : forall out,
    Forall (fun x => is_receive_call x \/ x = SocketSend version_request
                     \/ exists v, x = SocketSendSync (set_version_request v))
      out ->
    (forall o, ~ In (Notify o (on_connection_state_changed true)) out)
    /\ ~ In (SocketSendSync tracker_state_request) out).
  { intros out Hout. rewrite Forall_forall in Hout. split.
    - intros o Hin. apply list_elem_of_In, Hout in Hin.
      apply handshake_call_is_harmless in Hin as [_ Hin].
      exact (Hin o eq_refl).
    - intros Hin. apply list_elem_of_In, Hout in Hin.
      apply handshake_call_is_harmless in Hin as [Hin _].
      exact (Hin eq_refl). }
  destruct (Hharmless out1 Hout1) as [Hup1 Hquery1].
  destruct (Hharmless out2 Hout2) as [Hup2 Hquery2].
  assert (Hdisc : forall e',
    (forall o, ~ In (Notify o (on_connection_state_changed true))
                    (calls (disconnect e')))
    /\ ~ In (SocketSendSync tracker_state_request) (calls (disconnect e'))).
  { intros e'. destruct (decide (m_state e' = AS_STOPPED)) as [Hd|Hd].
    - rewrite disconnect_stopped by exact Hd. split; [intros o|]; intros [].
    - rewrite disconnect_not_stopped by exact Hd.
      split; [intros o|]; intros [Hin|[]]; discriminate Hin. }
  destruct (reported <? VERSION); [|destruct accepted; [discriminate Hfalse|]].
  - split; [apply disconnect_stops|].
    destruct (Hdisc e1) as [Hup Hquery].
    split; [intros o|]; cbn [calls snd In]; rewrite in_app_iff.
    + specialize (Hup o). specialize (Hup1 o).
      intros [Heq|[Hin|Hin]]; [discriminate Heq|tauto|tauto].
    + intros [Heq|[Hin|Hin]]; [discriminate Heq|tauto|tauto].
  - split; [apply disconnect_stops|].
    destruct (Hdisc e2) as [Hup Hquery].
    split; [intros o|]; cbn [calls snd In];
      rewrite !in_app_iff.
    + specialize (Hup o). specialize (Hup1 o). specialize (Hup2 o).
      intros [Heq|[Hin|[Hin|Hin]]]; [discriminate Heq|tauto|tauto|tauto].
    + intros [Heq|[Hin|[Hin|Hin]]]; [discriminate Heq|tauto|tauto|tauto].
Qed.

(** X21. A [connect] that goes through: called on a Stopped engine, with
    the socket connecting, a version of at least [VERSION] obtained and
    set-version acknowledged, [connect] returns true.  Its calls are, in
    this order: the socket's connect, those of the two steps of the
    handshake, the report that the connection is up, once to each
    connection-state listener registered before the call, and — the engine
    still running — the baseline query of the full tracker state, followed
    by what the receive context does while that query waits. *)
Theorem connect_goes_through host port c e reported e1 out1 e2 out2 :
  m_state e = AS_STOPPED ->
  socket_connects c = true ->
  get_default_version (while_polling c)
    (connect_opened (connect_prepare host port e))
  = (reported, e1, out1) ->
  VERSION <= reported ->
  set_version VERSION (while_set_version c) e1 = (true, e2, out2) ->
  m_state e2 <> AS_STOPPED ->
  let waiting :=
    receive_all (while_get_tracker_state c)
      (set_sync_requests
         (<[SR_GET_TRACKER_STATE := Message_new]> (m_sync_requests e2)) e2) in
  connect host port c e
  = (true, after waiting,
     SocketConnect host port
       :: out1 ++ out2
          ++ once_each (connection_state_observers e)
               (on_connection_state_changed true)
          ++ SocketSendSync tracker_state_request :: calls waiting).
Proof.
  intros Hs Hc Hpolled Hv Hset Hrun waiting.
  rewrite (connect_run host port c e _ _ _ _ _ _ Hs Hc Hpolled Hset).
  destruct (reported <? VERSION) eqn:Hlt; [apply Z.ltb_lt in Hlt; lia|].
  unfold get_tracker_state.
  rewrite send_sync_not_stopped
    by (first [exact Hrun | vm_compute; discriminate]).
  change (get_id tracker_state_request) with SR_GET_TRACKER_STATE.
  cbn zeta. fold waiting. cbn [after calls fst snd].
  destruct (handshake_registries (while_polling c) VERSION
              (while_set_version c)
              (connect_opened (connect_prepare host port e)))
    as [Hreg1 _].
  destruct (handshake_registries [] VERSION (while_set_version c) e1)
    as [_ Hreg2].
  rewrite Hpolled in Hreg1. rewrite Hset in Hreg2.
  cbn [after fst snd] in Hreg1, Hreg2.
  assert (Hobs : connection_state_observers e2
                 = connection_state_observers e).
  { unfold registries in Hreg1, Hreg2.
    injection Hreg1 as _ _ _ _ Hreg1. injection Hreg2 as _ _ _ _ Hreg2.
    rewrite Hreg2, Hreg1. reflexivity. }
  rewrite Hobs. reflexivity.
Qed.

Lemma get_default_version_silent e :
  m_state e <> AS_STOPPED ->
  exists e',
    get_default_version [] e = (0, e', [SocketSend version_request])
    /\ m_state e' = m_state e.
Proof.
  intros Hrun. unfold get_default_version.
  repeat (rewrite run_bind; cbn [get modify]).
  unfold send_async. rewrite run_bind. cbn [get].
  cbn [m_state set_server_proxy].
  rewrite bool_decide_eq_true_2 by exact Hrun. cbn [emit].
  repeat (rewrite run_bind; cbn [get modify]).
  rewrite poll_version_silent by reflexivity.
  repeat (rewrite run_bind; cbn [get modify]).
  rewrite run_ret. eexists. split; reflexivity.
Qed.

(** X22. A server that connects and then never sends anything: after the
    bounded wait for its version, [connect] gives up.  It returns false,
    the engine is Stopped, and the socket has seen exactly the connect,
    the version request, and the disconnect. *)
Theorem connect_to_silent_server host port c e :
  m_state e = AS_STOPPED ->
  socket_connects c = true ->
  while_polling c = [] ->
  value (connect host port c e) = false
  /\ m_state (after (connect host port c e)) = AS_STOPPED
  /\ calls (connect host port c e)
     = [SocketConnect host port; SocketSend version_request;
        SocketDisconnect].
Proof.
  intros Hs Hc Hsilent.
  assert (Hrun : m_state (connect_opened (connect_prepare host port e))
                 <> AS_STOPPED) by discriminate.
  destruct (get_default_version_silent _ Hrun) as (e1 & Hpolled & Hstate).
  rewrite <- Hsilent in Hpolled.
  assert (Hold : 0 < VERSION) by reflexivity.
  rewrite (connect_old_server_run host port c e 0 e1 _ Hs Hc Hpolled Hold).
  rewrite disconnect_not_stopped by (rewrite Hstate; exact Hrun).
  auto.
Qed.

(** X23. An unexpected loss of the connection: [on_disconnected] leaves
    the engine Stopped, tells the socket to disconnect only when the
    engine was not Stopped already, and then reports to each
    connection-state listener, once, that the connection is down; it does
    so also when the engine was Stopped. *)
Theorem on_disconnected_reports e :
  m_state (after (on_disconnected e)) = AS_STOPPED
  /\ calls (on_disconnected e)
     = (if decide (m_state e = AS_STOPPED) then [] else [SocketDisconnect])
       ++ once_each (connection_state_observers e)
            (on_connection_state_changed false).
Proof.
  unfold on_disconnected. rewrite run_bind.
  destruct (decide (m_state e = AS_STOPPED)) as [Hs|Hs].
  - rewrite disconnect_stopped by exact Hs.
    rewrite run_bind. cbn [get]. unfold notify. cbn. auto.
  - rewrite disconnect_not_stopped by exact Hs.
    rewrite run_bind. cbn [get]. unfold notify. cbn. auto.
Qed.

Lemma poll_version_bounded wait sleeps e :
  poll_version wait sleeps e = poll_version wait (firstn wait sleeps) e.
Proof.
  revert sleeps e. induction wait as [|wait IH]; intros sleeps e;
    [reflexivity|].
  cbn [poll_version]. rewrite !run_bind. cbn [get].
  destruct (version (m_server_proxy e) =? 0); [|reflexivity].
  rewrite !run_bind.
  destruct sleeps as [|sleep sleeps]; cbn [firstn hd tl].
  - destruct (receive_all [] e) as [[[] e1] out1].
    rewrite (IH [] e1). destruct wait; reflexivity.
  - destruct (receive_all sleep e) as [[[] e1] out1].
    rewrite (IH sleeps e1). reflexivity.
Qed.

(** X24. The wait for the server's version is bounded: what the receive
    context would deliver after the 5000th sleep of 1 ms has no effect on
    [get_default_version]. *)
Theorem get_default_version_bounded sleeps e :
  get_default_version sleeps e
  = get_default_version (firstn 5000 sleeps) e.
Proof.
  unfold get_default_version.
  rewrite !(run_bind get). cbn [get].
  rewrite !(run_bind (modify _)). cbn [modify].
  rewrite !(run_bind (send_async _)).
  destruct (send_async version_request _) as [[[] e1] out1].
  rewrite !(run_bind (poll_version _ _)).
  rewrite (poll_version_bounded 5000 sleeps e1). reflexivity.
Qed.

(** X25. [get_default_version] hands back the version it finds in the
    server-state snapshot after the wait, and puts the version field of
    the snapshot back to what it held before the call: the version the
    server reported is returned, not kept. *)
Theorem get_default_version_restores sleeps e :
  version (m_server_proxy (after (get_default_version sleeps e)))
  = version (m_server_proxy e).
Proof.
  unfold get_default_version.
  rewrite run_bind. cbn [get].
  rewrite run_bind. cbn [modify].
  rewrite run_bind.
  destruct (send_async version_request _) as [[[] e1] out1].
  rewrite run_bind.
  destruct (poll_version 5000 sleeps e1) as [[[] e2] out2].
  rewrite run_bind. cbn [get].
  rewrite run_bind. cbn [modify]. rewrite run_ret. reflexivity.
Qed.

End MoreLifecycle.

(** ** The demo reader *)

Section Reader.

Lemma land_low_bits state mask :
  Z.land (Z.ones 5) mask = mask ->
  Z.land state mask = Z.land (state mod 32) mask.
Proof.
  intros Hmask.
  change 32 with (2 ^ 5). rewrite <- Z.land_ones by lia.
  rewrite <- Z.land_assoc, Hmask. reflexivity.
Qed.

Lemma printed_state_bits_low state :
  printed_state_bits state = printed_state_bits (state mod 32).
Proof.
  unfold printed_state_bits. cbn [map].
  rewrite (land_low_bits state (Z.shiftl 1 (4 - 0))) by reflexivity.
  rewrite (land_low_bits state (Z.shiftl 1 (4 - 1))) by reflexivity.
  rewrite (land_low_bits state (Z.shiftl 1 (4 - 2))) by reflexivity.
  rewrite (land_low_bits state (Z.shiftl 1 (4 - 3))) by reflexivity.
  rewrite (land_low_bits state (Z.shiftl 1 (4 - 4))) by reflexivity.
  reflexivity.
Qed.

(** X26. The five numbers that the demo reader prints after the state of
    a gaze sample are its five low bits, each in place: every one is 0 or
    the mask of its position (16, 8, 4, 2, 1), and together they add up to
    the state modulo 32. *)
Theorem printed_state_bits_are_low_bits state :
  Forall2 (fun printed mask => printed = 0 \/ printed = mask)
    (printed_state_bits state) [16; 8; 4; 2; 1]
  /\ fold_right Z.add 0 (printed_state_bits state) = state mod 32.
Proof.
  rewrite printed_state_bits_low.
  assert (Hr : 0 <= state mod 32 < 32) by (apply Z.mod_pos_bound; lia).
  assert (Hcase : forall r, 0 <= r < 32 ->
    Forall2 (fun printed mask => printed = 0 \/ printed = mask)
      (printed_state_bits r) [16; 8; 4; 2; 1]
    /\ fold_right Z.add 0 (printed_state_bits r) = r).
  { intros r Hr32.
    destruct r as [|p|p]; [| |lia].
    - vm_compute. split; [|reflexivity].
      repeat (constructor; [auto|]). constructor.
    - do 5 (try destruct p as [p|p|]); try lia;
        (vm_compute; split; [|reflexivity];
         repeat (constructor; [auto|]); constructor). }
  apply Hcase, Hr.
Qed.

End Reader.

(** ** More examples *)

Section MoreExamples.

(** [GazeApi::connect()] is the engine's connect to the local host on port
    6555. *)
Lemma GazeApi_connect_default c e :
  GazeApi_connect (H := more_parser) c e
  = connect (H := more_parser) "127.0.0.1" "6555" c e.
Proof. reflexivity. Qed.


Lemma is_done_exactly_at_total_witness :
  CalibrationProxy.is_done
    (Nat.iter 3 CalibrationProxy.point_end
       (CalibrationProxy.start_calibration 3 CalibrationProxy.new))
  = true.
Proof.
  apply (is_done_exactly_at_total 3 3 CalibrationProxy.new).
  - reflexivity.
  - discriminate.
  - reflexivity.
Defined.

Lemma successful_result_stored_and_reported_witness :
  calls (on_message (H := more_parser) "pointend done" (mret tt)
           sample_running)
  = [Notify 4%nat (on_calibration_progress (Finite 0));
     Notify 2%nat (on_calibration_changed true good_result);
     Notify 4%nat (on_calibration_result true good_result)].
Proof.
  destruct (successful_result_stored_and_reported (H := more_parser)
              "pointend done"
              (carrying_calibresult good_result
                 (reply None GAC_CALIBRATION GAR_POINTEND))
              (mret tt) sample_running good_result
              (conj eq_refl (conj eq_refl (conj eq_refl eq_refl)))
              eq_refl eq_refl) as [Hcalls _].
  exact Hcalls.
Defined.

Lemma point_end_without_result_witness :
  calls (on_message (H := more_parser) "pointend" (mret tt) sample_running)
  = [Notify 4%nat (on_calibration_progress (Finite 0))].
Proof.
  destruct (point_end_without_result (H := more_parser) "pointend"
              (reply None GAC_CALIBRATION GAR_POINTEND)
              (mret tt) sample_running
              (conj eq_refl (conj eq_refl (conj eq_refl eq_refl)))
              (or_intror eq_refl)) as [Hcalls _].
  exact Hcalls.
Defined.

Lemma plain_acknowledgement_only_correlates_witness :
  calls (on_message (H := more_parser) "set_screen ok" (mret tt)
           sample_running) = [].
Proof.
  assert (Hack : plain_acknowledgement (H := more_parser) "set_screen ok"
                   (reply (Some SR_SET_SCREEN) GAC_TRACKER GAR_SET)).
  { split; [reflexivity|]. split; [reflexivity|].
    exists GAC_TRACKER, GAR_SET.
    split; [reflexivity|]. split; [reflexivity|]. discriminate. }
  destruct (plain_acknowledgement_only_correlates (H := more_parser)
              "set_screen ok" _ (mret tt) sample_running Hack)
    as [Hcalls _].
  exact Hcalls.
Defined.

Lemma broken_reply_only_correlates_witness :
  calls (on_message (H := more_parser) "no request" (mret tt)
           sample_running) = [].
Proof.
  assert (Hbroken : broken_reply (H := more_parser) sample_running
                      "no request"
                      (without_request (reply None GAC_TRACKER GAR_GET))).
  { split; [reflexivity|]. split; [reflexivity|].
    exists GAC_TRACKER. split; [reflexivity|]. left. reflexivity. }
  destruct (broken_reply_only_correlates (H := more_parser)
              "no request" _ (mret tt) sample_running Hbroken)
    as [Hcalls _].
  exact Hcalls.
Defined.

Lemma calibration_started_notified_witness :
  calls (on_message (H := more_parser) "start ok" (mret tt) sample_running)
  = [Notify 4%nat on_calibration_started].
Proof.
  destruct (calibration_started_notified (H := more_parser) "start ok"
              (reply (Some SR_CALIB_START) GAC_CALIBRATION GAR_START)
              (mret tt) sample_running
              (conj eq_refl (conj eq_refl (conj eq_refl eq_refl))))
    as [Hcalls _].
  exact Hcalls.
Defined.

Lemma abort_and_clear_replies_witness :
  calls (on_message (H := more_parser) "abort ok" (mret tt) sample_running)
  = []
  /\ calls (on_message (H := more_parser) "clear ok" (mret tt)
              sample_running) = [].
Proof.
  split.
  - destruct (abort_and_clear_replies (H := more_parser) "abort ok"
                (reply None GAC_CALIBRATION GAR_ABORT)
                (mret tt) sample_running) as [Habort _].
    destruct (Habort (conj eq_refl (conj eq_refl (conj eq_refl eq_refl))))
      as [Hcalls _].
    exact Hcalls.
  - destruct (abort_and_clear_replies (H := more_parser) "clear ok"
                (reply None GAC_CALIBRATION GAR_CLEAR)
                (mret tt) sample_running) as [_ Hclear].
    destruct (Hclear (conj eq_refl (conj eq_refl (conj eq_refl eq_refl))))
      as [Hcalls _].
    exact Hcalls.
Defined.

Lemma gaze_sample_stored_and_notified_witness :
  m_gaze_data (after (on_message (H := more_parser) "frame" (mret tt)
                        sample_running)) = sample_frame.
Proof.
  destruct (gaze_sample_stored_and_notified (H := more_parser) "frame"
              (carrying_frame sample_frame
                 (carrying_calibresult failed_result
                    (reply None GAC_TRACKER GAR_GET)))
              (mret tt) sample_running
              ServerState_zero Screen_zero sample_frame (Some failed_result)
              (conj eq_refl (conj eq_refl (conj eq_refl eq_refl)))
              eq_refl) as [Hstored _].
  exact Hstored.
Defined.

Lemma tracker_get_calibration_result_stored_witness :
  result failed_result = false
  /\ m_calib_result (after (on_message (H := more_parser) "frame" (mret tt)
                             sample_running)) = failed_result.
Proof.
  split; [reflexivity|].
  destruct (tracker_get_calibration_result_stored (H := more_parser) "frame"
              (carrying_frame sample_frame
                 (carrying_calibresult failed_result
                    (reply None GAC_TRACKER GAR_GET)))
              (mret tt) sample_running
              ServerState_zero Screen_zero (Some sample_frame) failed_result
              (conj eq_refl (conj eq_refl (conj eq_refl eq_refl)))
              eq_refl) as [Hstored _].
  exact Hstored.
Defined.

Lemma unchanged_tracker_get_is_silent_witness :
  calls (on_message (H := more_parser) "version 2" (mret tt) sample_running)
  = [].
Proof.
  destruct (unchanged_tracker_get_is_silent (H := more_parser) "version 2"
              (carrying_version 2 (reply None GAC_TRACKER GAR_GET))
              (mret tt) sample_running
              (set_version_field 2 ServerState_zero)
              (conj eq_refl (conj eq_refl (conj eq_refl eq_refl)))
              eq_refl eq_refl) as [Hcalls _].
  exact Hcalls.
Defined.

Lemma reply_with_id_is_stored_witness :
  parse_status_code (Parser := more_parser)
    (without_category (reply (Some SR_SET_SCREEN) GAC_TRACKER GAR_SET))
  = Some GASC_OK
  /\ exists msg,
       m_sync_requests
         (after (on_message (H := more_parser) "no category, id" (mret tt)
                   sample_running)) !! SR_SET_SCREEN = Some msg
       /\ m_id msg = SR_SET_SCREEN
       /\ m_statuscode msg = GASC_ERROR.
Proof.
  split; [reflexivity|].
  destruct (reply_with_id_is_stored (H := more_parser) "no category, id"
              (without_category
                 (reply (Some SR_SET_SCREEN) GAC_TRACKER GAR_SET))
              (mret tt) sample_running SR_SET_SCREEN eq_refl eq_refl)
    as (msg & Hlookup & Hid & Hstatus).
  - discriminate.
  - exists msg. split; [exact Hlookup|]. split; [exact Hid|exact Hstatus].
Defined.

Lemma unanswered_call_returns_false_witness :
  value (set_screen (H := more_parser) wide_screen [] sample_running)
  = false.
Proof.
  assert (Hrun : m_state sample_running <> AS_STOPPED) by discriminate.
  destruct (unanswered_call_returns_false (H := more_parser) wide_screen 2
              0 0 sample_running Hrun) as [Hscreen _].
  rewrite Hscreen. reflexivity.
Defined.

Lemma acknowledged_call_returns_true_witness :
  value (set_screen (H := more_parser) wide_screen
           [EvMessage "set_screen ok" []] sample_running) = true.
Proof.
  assert (Hrun : m_state sample_running <> AS_STOPPED) by discriminate.
  assert (Hack : plain_acknowledgement (H := more_parser) "set_screen ok"
                   (reply (Some SR_SET_SCREEN) GAC_TRACKER GAR_SET)).
  { split; [reflexivity|]. split; [reflexivity|].
    exists GAC_TRACKER, GAR_SET.
    split; [reflexivity|]. split; [reflexivity|]. discriminate. }
  destruct (acknowledged_call_returns_true (H := more_parser) wide_screen
              0 0 "set_screen ok" _ sample_running Hrun Hack)
    as [Hscreen _].
  destruct (Hscreen eq_refl) as [Hvalue _].
  exact Hvalue.
Defined.

Lemma calibration_start_acknowledged_witness :
  value (calibration_start (H := more_parser) 9
           [EvMessage "start ok" []] sample_running) = true.
Proof.
  assert (Hrun : m_state sample_running <> AS_STOPPED) by discriminate.
  destruct (calibration_start_acknowledged (H := more_parser) 9 "start ok"
              (reply (Some SR_CALIB_START) GAC_CALIBRATION GAR_START)
              sample_running Hrun
              (conj eq_refl (conj eq_refl (conj eq_refl eq_refl)))
              eq_refl) as [Hvalue _].
  exact Hvalue.
Defined.

Lemma stopped_receive_leaves_socket_alone_witness :
  m_state
    (after (receive_all (H := more_parser)
              [EvMessage "tracker changed" [EvMessage "screen" []];
               EvDisconnected] sample_engine)) = AS_STOPPED.
Proof.
  destruct (stopped_receive_leaves_socket_alone (H := more_parser)
              [EvMessage "tracker changed" [EvMessage "screen" []];
               EvDisconnected] sample_engine eq_refl) as [Hstill _].
  exact Hstill.
Defined.

Lemma failed_connect_stays_stopped_witness :
  m_state (after (connect (H := more_parser) "127.0.0.1" "6555" old_server
                    sample_engine)) = AS_STOPPED.
Proof.
  assert (Hfalse : value (connect (H := more_parser) "127.0.0.1" "6555"
                            old_server sample_engine) = false)
    by (vm_compute; reflexivity).
  destruct (failed_connect_stays_stopped (H := more_parser) "127.0.0.1"
              "6555" old_server sample_engine eq_refl Hfalse)
    as [Hstopped _].
  exact Hstopped.
Defined.

Lemma connect_goes_through_witness :
  value (connect (H := more_parser) "127.0.0.1" "6555" current_server
           sample_engine) = true.
Proof.
  destruct (get_default_version (H := more_parser)
              (while_polling current_server)
              (connect_opened
                 (connect_prepare "127.0.0.1" "6555" sample_engine)))
    as [[reported e1] out1] eqn:Hpolled.
  destruct (set_version (H := more_parser) VERSION
              (while_set_version current_server) e1)
    as [[accepted e2] out2] eqn:Hset.
  assert (Hfacts : VERSION <= reported /\ accepted = true
                   /\ m_state e2 <> AS_STOPPED).
  { revert Hset. vm_compute in Hpolled. injection Hpolled as <- <- <-.
    vm_compute. intros [= <- <- <-].
    split; [discriminate|]. split; [reflexivity|discriminate]. }
  destruct Hfacts as (Hv & -> & Hrun).
  rewrite (connect_goes_through (H := more_parser) "127.0.0.1" "6555"
             current_server sample_engine reported e1 out1 e2 out2
             eq_refl eq_refl Hpolled Hv Hset Hrun).
  reflexivity.
Defined.

Lemma connect_to_silent_server_witness :
  calls (connect (H := more_parser) "127.0.0.1" "6555" silent_server
           sample_engine)
  = [SocketConnect "127.0.0.1" "6555"; SocketSend version_request;
     SocketDisconnect].
Proof.
  destruct (connect_to_silent_server (H := more_parser) "127.0.0.1" "6555"
              silent_server sample_engine eq_refl eq_refl eq_refl)
    as (_ & _ & Hcalls).
  exact Hcalls.
Defined.

End MoreExamples.
